(** * URL shortener: the client application and the service it talks to

    The development embeds [frontend/app/index.tsx] (the React Native
    screen: its state hooks and its handlers [fetchUrls], [shortenUrl],
    [deleteUrl], [getShortUrl], [truncateUrl]) and, for the properties that
    are decided on the server, a model of the shortening service and of its
    mapping store.

    JavaScript strings are sequences of UTF-16 code units; [length],
    [substring], [trim] and regular expressions without the [u] flag all
    work on code units, so a string is a [list N] here. *)

From Stdlib Require Import ZArith NArith Lia List Ascii String.
From stdpp Require Import base decidable option numbers sorting list.

Local Open Scope N_scope.

(** ** JavaScript strings *)

Abbreviation jsstring := (list N) (only parsing).

(** The code units of an ASCII literal of the source. *)
Definition js (s : string) : jsstring :=
  (fun a => N_of_ascii a) <$> list_ascii_of_string s.

(** ECMAScript [LineTerminator]: LF, CR, LS, PS. *)
Definition lineTerminator (c : N) : bool :=
  (c =? 10) || (c =? 13) || (c =? 8232) || (c =? 8233).

(** ECMAScript [WhiteSpace]: TAB, VT, FF, ZWNBSP and the code points of
    category Zs (SP, NBSP, U+1680, U+2000..U+200A, U+202F, U+205F, U+3000). *)
Definition whiteSpace (c : N) : bool :=
  (c =? 9) || (c =? 11) || (c =? 12) || (c =? 65279) ||
  (c =? 32) || (c =? 160) || (c =? 5760) ||
  ((8192 <=? c) && (c <=? 8202)) ||
  (c =? 8239) || (c =? 8287) || (c =? 12288).

(** What [String.prototype.trim] strips: white space and line terminators. *)
Definition trimmable (c : N) : bool := whiteSpace c || lineTerminator c.

Fixpoint trimStart (s : jsstring) : jsstring :=
  match s with
  | [] => []
  | c :: s' => if trimmable c then trimStart s' else s
  end.

Definition trimEnd (s : jsstring) : jsstring := rev (trimStart (rev s)).

(** [s.trim()] *)
Definition trim (s : jsstring) : jsstring := trimEnd (trimStart s).

(** Truthiness of a string value: only the empty string is falsy. *)
Definition truthy (s : jsstring) : bool :=
  match s with [] => false | _ :: _ => true end.

(** [s || d] on strings. *)
Definition orElse (s d : jsstring) : jsstring := if truthy s then s else d.

(** [s.substring(start, end)] for indices that are natural numbers: both
    are clamped to [s.length] and swapped when [start > end]. *)
Definition substring (s : jsstring) (start stop : N) : jsstring :=
  let len := N.of_nat (length s) in
  let a := N.min start len in
  let b := N.min stop len in
  let from := N.min a b in
  let to := N.max a b in
  take (N.to_nat (to - from)) (drop (N.to_nat from) s).

(** ** Regular expressions

    The fragment of ECMAScript patterns the source uses: literal
    characters, [.], [?], [+], sequencing.  Without flags, [.] matches every
    code unit except the line terminators. *)
Module Regex.

Inductive re : Type :=
| Void
| Eps
| Chr (c : N)
| Dot
| Seq (r1 r2 : re)
| Alt (r1 r2 : re)
| Star (r : re).

(** [r?] and [r+] *)
Definition Opt (r : re) : re := Alt r Eps.
Definition Plus (r : re) : re := Seq r (Star r).

(** A literal string. *)
Definition Lit (s : jsstring) : re := foldr (fun c r => Seq (Chr c) r) Eps s.

(** The strings a pattern denotes. *)
Inductive matches : re -> jsstring -> Prop :=
| m_eps : matches Eps []
| m_chr c : matches (Chr c) [c]
| m_dot c : lineTerminator c = false -> matches Dot [c]
| m_seq r1 r2 u v : matches r1 u -> matches r2 v -> matches (Seq r1 r2) (u ++ v)
| m_alt_l r1 r2 u : matches r1 u -> matches (Alt r1 r2) u
| m_alt_r r1 r2 u : matches r2 u -> matches (Alt r1 r2) u
| m_star_nil r : matches (Star r) []
| m_star_app r u v : matches r u -> matches (Star r) v -> matches (Star r) (u ++ v).

(** [/^r/] finds a match in [s] when some prefix of [s] is denoted by [r]:
    without the [m] flag the assertion [^] holds at index 0 only. *)
Definition found_at_start (r : re) (s : jsstring) : Prop :=
  exists p q, s = p ++ q /\ matches r p.

Fixpoint nullable (r : re) : bool :=
  match r with
  | Void => false
  | Eps => true
  | Chr _ => false
  | Dot => false
  | Seq r1 r2 => nullable r1 && nullable r2
  | Alt r1 r2 => nullable r1 || nullable r2
  | Star _ => true
  end.

Fixpoint deriv (c : N) (r : re) : re :=
  match r with
  | Void => Void
  | Eps => Void
  | Chr d => if c =? d then Eps else Void
  | Dot => if lineTerminator c then Void else Eps
  | Seq r1 r2 =>
      if nullable r1 then Alt (Seq (deriv c r1) r2) (deriv c r2)
      else Seq (deriv c r1) r2
  | Alt r1 r2 => Alt (deriv c r1) (deriv c r2)
  | Star r1 => Seq (deriv c r1) (Star r1)
  end.

(** The matcher run by [s.match(/^r/)]; the result is [true] when the call
    returns a match object and [false] when it returns [null]. *)
Fixpoint test_at_start (r : re) (s : jsstring) : bool :=
  nullable r ||
  match s with
  | [] => false
  | c :: s' => test_at_start (deriv c r) s'
  end.

End Regex.

(** [/^https?:\/\/.+/] *)
Definition url_pattern : Regex.re :=
  Regex.Seq (Regex.Lit (js "http"))
    (Regex.Seq (Regex.Opt (Regex.Chr 115))
       (Regex.Seq (Regex.Lit (js "://")) (Regex.Plus Regex.Dot))).

(** ** The client: data model

    [interface URL] of the source; [clicks] is a count, [created_at] the
    timestamp as the server serialises it. *)
Record URL : Type := {
  original_url : jsstring;
  short_code : jsstring;
  clicks : N;
  created_at : jsstring;
  qr_code : jsstring;
  custom : bool;
}.

(** The state hooks of [Index]. *)
Record State : Type := {
  originalUrl : jsstring;
  customCode : jsstring;
  urls : list URL;
  loading : bool;
  fetchingUrls : bool;
  selectedQR : option jsstring;
  showCustomCode : bool;
}.

(** The values passed to [useState]. *)
Definition initialState : State :=
  {| originalUrl := []; customCode := []; urls := []; loading := false;
     fetchingUrls := true; selectedQR := None; showCustomCode := false |}.

Definition setOriginalUrl (v : jsstring) (st : State) : State :=
  {| originalUrl := v; customCode := customCode st; urls := urls st;
     loading := loading st; fetchingUrls := fetchingUrls st;
     selectedQR := selectedQR st; showCustomCode := showCustomCode st |}.

Definition setCustomCode (v : jsstring) (st : State) : State :=
  {| originalUrl := originalUrl st; customCode := v; urls := urls st;
     loading := loading st; fetchingUrls := fetchingUrls st;
     selectedQR := selectedQR st; showCustomCode := showCustomCode st |}.

Definition setUrls (v : list URL) (st : State) : State :=
  {| originalUrl := originalUrl st; customCode := customCode st; urls := v;
     loading := loading st; fetchingUrls := fetchingUrls st;
     selectedQR := selectedQR st; showCustomCode := showCustomCode st |}.

Definition setLoading (v : bool) (st : State) : State :=
  {| originalUrl := originalUrl st; customCode := customCode st; urls := urls st;
     loading := v; fetchingUrls := fetchingUrls st;
     selectedQR := selectedQR st; showCustomCode := showCustomCode st |}.

Definition setFetchingUrls (v : bool) (st : State) : State :=
  {| originalUrl := originalUrl st; customCode := customCode st; urls := urls st;
     loading := loading st; fetchingUrls := v;
     selectedQR := selectedQR st; showCustomCode := showCustomCode st |}.

Definition setSelectedQR (v : option jsstring) (st : State) : State :=
  {| originalUrl := originalUrl st; customCode := customCode st; urls := urls st;
     loading := loading st; fetchingUrls := fetchingUrls st;
     selectedQR := v; showCustomCode := showCustomCode st |}.

Definition setShowCustomCode (v : bool) (st : State) : State :=
  {| originalUrl := originalUrl st; customCode := customCode st; urls := urls st;
     loading := loading st; fetchingUrls := fetchingUrls st;
     selectedQR := selectedQR st; showCustomCode := v |}.

(** The body of [POST /api/shorten]; [custom_code] is a string or [null]. *)
Record ShortenBody : Type := {
  body_original_url : jsstring;
  body_custom_code : option jsstring;
}.

(** What the [catch] clauses read of a rejected request:
    [error.response?.data?.detail]. *)
Record ErrorData : Type := { detail : option jsstring }.
Record ErrorResponse : Type := { data : option ErrorData }.
Record AxiosError : Type := { response : option ErrorResponse }.

(** The outcome of an awaited axios call. *)
Inductive Reply (A : Type) : Type :=
| Fulfilled (response_data : A)
| Rejected (error : AxiosError).
Arguments Fulfilled {A} response_data.
Arguments Rejected {A} error.

(** The two buttons of the confirmation dialog of [deleteUrl]. *)
Inductive Button : Type := Cancel | Delete.

(** ** The client: effects

    Everything a handler asks of its environment: the three axios calls,
    the alerts, the console and the clipboard. *)
Inductive Eff : Type -> Type :=
| AxiosGet (url : jsstring) : Eff (Reply (list URL))
| AxiosPost (url : jsstring) (body : ShortenBody) : Eff (Reply URL)
| AxiosDelete (url : jsstring) : Eff (Reply unit)
| AlertAlert (title message : jsstring) : Eff unit
| AlertButtons (title message : jsstring) : Eff Button
| ConsoleError (label : jsstring) : Eff unit
| ClipboardSetString (text : jsstring) : Eff unit.

(** A handler is a program over these effects. *)
Inductive Prog (A : Type) : Type :=
| Ret (a : A)
| Vis {X : Type} (e : Eff X) (k : X -> Prog A).
Arguments Ret {A} a.
Arguments Vis {A X} e k.

Fixpoint bind {A B : Type} (p : Prog A) (f : A -> Prog B) : Prog B :=
  match p with
  | Ret a => f a
  | Vis e k => Vis e (fun x => bind (k x) f)
  end.

#[global] Instance Prog_ret : MRet Prog := fun _ a => Ret a.
#[global] Instance Prog_bind : MBind Prog := fun _ _ f p => bind p f.

Definition call {X : Type} (e : Eff X) : Prog X := Vis e Ret.

(** The observable part of an effect. *)
Inductive Event : Type :=
| HttpGet (url : jsstring)
| HttpPost (url : jsstring) (body : ShortenBody)
| HttpDelete (url : jsstring)
| Alerted (title message : jsstring)
| Asked (title message : jsstring)
| Logged (label : jsstring)
| Copied (text : jsstring).

Definition event_of {X : Type} (e : Eff X) : Event :=
  match e with
  | AxiosGet url => HttpGet url
  | AxiosPost url body => HttpPost url body
  | AxiosDelete url => HttpDelete url
  | AlertAlert t m => Alerted t m
  | AlertButtons t m => Asked t m
  | ConsoleError l => Logged l
  | ClipboardSetString t => Copied t
  end.

Definition is_request (ev : Event) : bool :=
  match ev with
  | HttpGet _ | HttpPost _ _ | HttpDelete _ => true
  | _ => false
  end.

Definition is_post (ev : Event) : bool :=
  match ev with HttpPost _ _ => true | _ => false end.

(** An environment with state [W] answers every effect. *)
Definition handler (W : Type) : Type := forall X : Type, Eff X -> W -> X * W.

Fixpoint run {W A : Type} (h : handler W) (p : Prog A) (w : W) : A * W :=
  match p with
  | Ret a => (a, w)
  | Vis e k => let '(x, w') := h _ e w in run h (k x) w'
  end.

(** An environment that answers from fixed replies and records the effects
    in the order they happen. *)
Record Oracle : Type := {
  on_get : jsstring -> Reply (list URL);
  on_post : jsstring -> ShortenBody -> Reply URL;
  on_delete : jsstring -> Reply unit;
  on_buttons : jsstring -> jsstring -> Button;
}.

Definition answer (o : Oracle) {X : Type} (e : Eff X) : X :=
  match e in Eff X return X with
  | AxiosGet url => on_get o url
  | AxiosPost url body => on_post o url body
  | AxiosDelete url => on_delete o url
  | AlertAlert _ _ => tt
  | AlertButtons t m => on_buttons o t m
  | ConsoleError _ => tt
  | ClipboardSetString _ => tt
  end.

Definition scripted (o : Oracle) : handler (list Event) :=
  fun X e trace => (answer o e, trace ++ [event_of e]).

(** ** The client: handlers of [Index] *)
Section Index.

(** [process.env.EXPO_PUBLIC_BACKEND_URL]: a string, or [undefined] when
    the variable is not set. *)
Variable BACKEND_URL : option jsstring.

(** A value interpolated in a template literal. *)
Definition interpolate (v : option jsstring) : jsstring :=
  match v with Some s => s | None => js "undefined" end.

(** A value placed among the children of a [Text] element: [undefined]
    renders nothing. *)
Definition child (v : option jsstring) : jsstring :=
  match v with Some s => s | None => [] end.

Definition fetchUrls (st : State) : Prog State :=
  let st := setFetchingUrls true st in
  r ← call (AxiosGet (interpolate BACKEND_URL ++ js "/api/urls"));
  match r with
  | Fulfilled response_data =>
      mret (setFetchingUrls false (setUrls response_data st))
  | Rejected _ =>
      call (ConsoleError (js "Error fetching URLs:"));;
      call (AlertAlert (js "Error") (js "Failed to fetch URLs"));;
      mret (setFetchingUrls false st)
  end.

(** [error.response?.data?.detail] *)
Definition response_detail (error : AxiosError) : option jsstring :=
  match response error with
  | Some r => match data r with Some d => detail d | None => None end
  | None => None
  end.

(** [error.response?.data?.detail || 'Failed to shorten URL'] *)
Definition shorten_message (error : AxiosError) : jsstring :=
  match response_detail error with
  | Some d => orElse d (js "Failed to shorten URL")
  | None => js "Failed to shorten URL"
  end.

(** [customCode.trim() || null] *)
Definition custom_code_field (customCode : jsstring) : option jsstring :=
  if truthy (trim customCode) then Some (trim customCode) else None.

Definition shortenUrl (st : State) : Prog State :=
  if negb (truthy (trim (originalUrl st))) then
    call (AlertAlert (js "Error") (js "Please enter a URL"));;
    mret st
  else if negb (Regex.test_at_start url_pattern (originalUrl st)) then
    call (AlertAlert (js "Error")
            (js "Please enter a valid URL (must start with http:// or https://)"));;
    mret st
  else
    let st1 := setLoading true st in
    r ← call (AxiosPost (interpolate BACKEND_URL ++ js "/api/shorten")
                {| body_original_url := originalUrl st;
                   body_custom_code := custom_code_field (customCode st) |});
    match r with
    | Fulfilled response_data =>
        let st2 := setUrls (response_data :: urls st) st1 in
        let st3 := setOriginalUrl [] st2 in
        let st4 := setCustomCode [] st3 in
        let st5 := setShowCustomCode false st4 in
        call (AlertAlert (js "Success") (js "URL shortened successfully!"));;
        mret (setLoading false st5)
    | Rejected error =>
        call (ConsoleError (js "Error shortening URL:"));;
        call (AlertAlert (js "Error") (shorten_message error));;
        mret (setLoading false st1)
    end.

Definition deleteUrl (shortCode : jsstring) (st : State) : Prog State :=
  b ← call (AlertButtons (js "Delete URL")
              (js "Are you sure you want to delete this shortened URL?"));
  match b with
  | Cancel => mret st
  | Delete =>
      r ← call (AxiosDelete (interpolate BACKEND_URL ++ js "/api/urls/" ++ shortCode));
      match r with
      | Fulfilled _ =>
          let st1 :=
            setUrls (filter (fun url => short_code url ≠ shortCode) (urls st)) st in
          call (AlertAlert (js "Success") (js "URL deleted successfully"));;
          mret st1
      | Rejected _ =>
          call (ConsoleError (js "Error deleting URL:"));;
          call (AlertAlert (js "Error") (js "Failed to delete URL"));;
          mret st
      end
  end.

Definition copyToClipboard (text : jsstring) : Prog unit :=
  call (ClipboardSetString text);;
  call (AlertAlert (js "Copied!") (js "Short URL copied to clipboard")).

Definition getShortUrl (shortCode : jsstring) : jsstring :=
  interpolate BACKEND_URL ++ js "/api/" ++ shortCode.

(** [truncateUrl(url, maxLength = 40)]: [maxLength] is a number of
    characters, [None] the omitted argument. *)
Definition truncateUrl (url : jsstring) (maxLength : option N) : jsstring :=
  let maxLength := default 40 maxLength in
  if N.of_nat (length url) <=? maxLength then url
  else substring url 0 maxLength ++ js "...".

(** The card of a record: the text under "Short URL:"
    ([{BACKEND_URL}/api/{url.short_code}]), the title, and what the Copy
    button does. *)
Definition cardShortUrl (url : URL) : jsstring :=
  child BACKEND_URL ++ js "/api/" ++ short_code url.

Definition cardTitle (url : URL) : jsstring :=
  truncateUrl (original_url url) (Some 35).

Definition onPressCopy (url : URL) : Prog unit :=
  copyToClipboard (getShortUrl (short_code url)).

Definition onPressDelete (url : URL) (st : State) : Prog State :=
  deleteUrl (short_code url) st.

End Index.

(** ** The service

    The code of the server (the [backend/] directory of the repository) is
    not embedded here; the definitions of this module follow the
    specification of its components: CodeGenerator, MappingStore and
    ShorteningService. *)
Module Service.

(** Modelled from the spec: the error kinds of the service (the server's
    code is missing); an invalid custom code is a [ValidationError]. *)
Inductive Invalid : Type := InvalidUrl | InvalidCode.

Inductive Error : Type :=
| ValidationError (what : Invalid)
| AlreadyExists
| CodeSpaceExhausted
| NotFound
| StoreUnavailable.

(** Modelled from the spec: the UrlRecord entity of the missing server. *)
Record UrlRecord : Type := {
  shortCode : jsstring;
  originalUrl : jsstring;
  clicks : N;
  createdAt : Z;
  isCustom : bool;
}.

(** Modelled from the spec: the keyed table [urls] of the missing server,
    one row per record. *)
Abbreviation Table := (list UrlRecord) (only parsing).

Definition codes (t : Table) : list jsstring := shortCode <$> t.

(** Modelled from the spec: the URL-safe alphabet of the missing
    CodeGenerator (letters, digits, [-], [_]). *)
Definition urlSafe (c : N) : bool :=
  ((65 <=? c) && (c <=? 90)) || ((97 <=? c) && (c <=? 122)) ||
  ((48 <=? c) && (c <=? 57)) || (c =? 45) || (c =? 95).

(** Modelled from the spec: [validateCustom] of the missing CodeGenerator;
    a custom code is non-empty, of length 1 to 32, over the URL-safe
    alphabet. *)
Definition validCustom (code : jsstring) : bool :=
  (1 <=? length code)%nat && (length code <=? 32)%nat && forallb urlSafe code.

Definition validateCustom (code : jsstring) : option Error :=
  if validCustom code then None else Some (ValidationError InvalidCode).

Definition base62 : jsstring :=
  js "ABCDEFGHIJKLMNOPQRSTUVWXYZabcdefghijklmnopqrstuvwxyz0123456789".

(** Modelled from the spec: [generate] of the missing CodeGenerator; six
    characters of the base62 alphabet drawn from an explicit random
    source, the draws of the [attempt]-th candidate being disjoint from
    those of the others. *)
Definition generate (rand : nat -> N) (attempt : nat) : jsstring :=
  (fun i => nth (N.to_nat (rand (6 * attempt + i)%nat mod 62)) base62 0) <$> seq 0 6.

(** Modelled from the spec: [insertIfAbsent] of the missing MappingStore. *)
Definition insertIfAbsent (r : UrlRecord) (t : Table) : Table + Error :=
  if bool_decide (shortCode r ∈ codes t) then inr AlreadyExists
  else inl (t ++ [r]).

(** Modelled from the spec: [get] of the missing MappingStore. *)
Definition get (code : jsstring) (t : Table) : UrlRecord + Error :=
  match filter (fun r => shortCode r = code) t with
  | r :: _ => inl r
  | [] => inr NotFound
  end.

(** Modelled from the spec: [delete] of the missing MappingStore, a hard
    delete. *)
Definition delete (code : jsstring) (t : Table) : Table + Error :=
  if bool_decide (code ∈ codes t) then inl (filter (fun r => shortCode r ≠ code) t)
  else inr NotFound.

Definition newer_first (a b : UrlRecord) : Prop := (createdAt b <= createdAt a)%Z.

#[global] Instance newer_first_dec : RelDecision newer_first :=
  fun a b => decide (createdAt b <= createdAt a)%Z.

(** Modelled from the spec: [listAll(orderBy=createdAt desc)] of the
    missing MappingStore. *)
Definition listAll (t : Table) : list UrlRecord := merge_sort newer_first t.

Definition retryBound : nat := 5.

(** Modelled from the spec: step 3 of [shorten], the bounded retry of
    generated candidates. *)
Fixpoint insertGenerated (rand : nat -> N) (now : Z) (url : jsstring)
    (attempt remaining : nat) (t : Table) : (UrlRecord * Table) + Error :=
  match remaining with
  | O => inr CodeSpaceExhausted
  | S remaining' =>
      let r := {| shortCode := generate rand attempt; originalUrl := url;
                  clicks := 0; createdAt := now; isCustom := false |} in
      match insertIfAbsent r t with
      | inl t' => inl (r, t')
      | inr _ => insertGenerated rand now url (S attempt) remaining' t
      end
  end.

(** Modelled from the spec: steps 1 to 3 of [shorten] of the missing
    ShorteningService. *)
Definition shorten (rand : nat -> N) (now : Z) (url : jsstring)
    (customCode : option jsstring) (t : Table) : (UrlRecord * Table) + Error :=
  if negb (Regex.test_at_start url_pattern url) then inr (ValidationError InvalidUrl)
  else
    match customCode with
    | Some code =>
        match validateCustom code with
        | Some e => inr e
        | None =>
            let r := {| shortCode := code; originalUrl := url;
                        clicks := 0; createdAt := now; isCustom := true |} in
            match insertIfAbsent r t with
            | inl t' => inl (r, t')
            | inr e => inr e
            end
        end
    | None => insertGenerated rand now url 0 retryBound t
    end.

(** What the service leaves to its surroundings: the QR encoder (it may
    fail), the serialisation of timestamps, the text sent with an error,
    and the base of the short URLs. *)
Record Externals : Type := {
  QrEncoder_encode : jsstring -> option jsstring;
  serialise : Z -> jsstring;
  error_detail : Error -> jsstring;
  base : jsstring;
}.

End Service.

(** Modelled from the spec: step 4 of [shorten] of the missing
    ShorteningService, the record enriched with its QR reference as the
    client receives it; a failed encoding leaves the reference empty. *)
Definition enrich (ext : Service.Externals) (r : Service.UrlRecord) : URL :=
  {| original_url := Service.originalUrl r;
     short_code := Service.shortCode r;
     clicks := Service.clicks r;
     created_at := Service.serialise ext (Service.createdAt r);
     qr_code :=
       default [] (Service.QrEncoder_encode ext
                     (Service.base ext ++ Service.shortCode r));
     custom := Service.isCustom r |}.

(** An error of the service as the client's [catch] sees it. *)
Definition failure (ext : Service.Externals) (e : Service.Error) : AxiosError :=
  {| response :=
       Some {| data := Some {| detail := Some (Service.error_detail ext e) |} |} |}.

(** ** The client and the service together *)

(** [s] without its prefix [p], when it has it. *)
Fixpoint stripPrefix (p s : jsstring) : option jsstring :=
  match p, s with
  | [], _ => Some s
  | a :: p', b :: s' => if a =? b then stripPrefix p' s' else None
  | _ :: _, [] => None
  end.

(** What the surroundings decide during one handler: the clock and the
    random source of the service, whether the store can be reached, and the
    button the user presses in a dialog. *)
Record Env : Type := {
  now : Z;
  rand : nat -> N;
  available : bool;
  press : Button;
}.

(** The table of the service and the effects the client has performed. *)
Abbreviation World := (list Service.UrlRecord * list Event)%type (only parsing).

(** What the user can do on the screen. *)
Inductive Action : Type :=
| Mount
| ChangeOriginalUrl (text : jsstring)
| ChangeCustomCode (text : jsstring)
| ToggleCustomCode
| PressShorten
| PressRefresh
| PressCopy (index : nat)
| PressQR (index : nat)
| PressDelete (index : nat)
| CloseQR.

Section System.

Variable BACKEND_URL : option jsstring.
Variable ext : Service.Externals.

(** Modelled from the spec: the missing server behind the three routes
    the client calls ([GET /api/urls], [POST /api/shorten],
    [DELETE /api/urls/<code>]), each request served in one step:
    [listAll], [shorten] and [delete] with their typed errors. *)
Definition serve (env : Env) : handler World :=
  fun X e w =>
    let t := w.1 in
    let trace := w.2 ++ [event_of e] in
    match e in Eff X return X * World with
    | AxiosGet url =>
        if negb (available env) then
          (Rejected (failure ext Service.StoreUnavailable), (t, trace))
        else if bool_decide (url = interpolate BACKEND_URL ++ js "/api/urls") then
          (Fulfilled (enrich ext <$> Service.listAll t), (t, trace))
        else (Rejected (failure ext Service.NotFound), (t, trace))
    | AxiosPost url body =>
        if negb (available env) then
          (Rejected (failure ext Service.StoreUnavailable), (t, trace))
        else if bool_decide (url = interpolate BACKEND_URL ++ js "/api/shorten") then
          match Service.shorten (rand env) (now env)
                  (body_original_url body) (body_custom_code body) t with
          | inl (r, t') => (Fulfilled (enrich ext r), (t', trace))
          | inr err => (Rejected (failure ext err), (t, trace))
          end
        else (Rejected (failure ext Service.NotFound), (t, trace))
    | AxiosDelete url =>
        if negb (available env) then
          (Rejected (failure ext Service.StoreUnavailable), (t, trace))
        else
          match stripPrefix (interpolate BACKEND_URL ++ js "/api/urls/") url with
          | Some code =>
              match Service.delete code t with
              | inl t' => (Fulfilled tt, (t', trace))
              | inr err => (Rejected (failure ext err), (t, trace))
              end
          | None => (Rejected (failure ext Service.NotFound), (t, trace))
          end
    | AlertAlert _ _ => (tt, (t, trace))
    | AlertButtons _ _ => (press env, (t, trace))
    | ConsoleError _ => (tt, (t, trace))
    | ClipboardSetString _ => (tt, (t, trace))
    end.

(** The handler behind each control.  [useEffect] fetches the list when
    the screen mounts; the Shorten button is disabled while [loading];
    the cards are shown once the list has been fetched. *)
Definition perform (a : Action) (st : State) : Prog State :=
  match a with
  | Mount => fetchUrls BACKEND_URL initialState
  | ChangeOriginalUrl text => mret (setOriginalUrl text st)
  | ChangeCustomCode text => mret (setCustomCode text st)
  | ToggleCustomCode => mret (setShowCustomCode (negb (showCustomCode st)) st)
  | PressShorten => if loading st then mret st else shortenUrl BACKEND_URL st
  | PressRefresh => fetchUrls BACKEND_URL st
  | PressCopy index =>
      match (if fetchingUrls st then None else urls st !! index) with
      | Some url => onPressCopy BACKEND_URL url;; mret st
      | None => mret st
      end
  | PressQR index =>
      match (if fetchingUrls st then None else urls st !! index) with
      | Some url => mret (setSelectedQR (Some (qr_code url)) st)
      | None => mret st
      end
  | PressDelete index =>
      match (if fetchingUrls st then None else urls st !! index) with
      | Some url => onPressDelete BACKEND_URL url st
      | None => mret st
      end
  | CloseQR => mret (setSelectedQR None st)
  end.






End System.

(** ** Vocabulary of the statements *)

(** A string matches [/^https?:\/\/.+/] exactly when it starts with
    [http://] or [https://] followed by a character that is not a line
    terminator. *)
Definition starts_like_url (s : jsstring) : Prop :=
  exists c rest, lineTerminator c = false /\
    (s = js "http://" ++ c :: rest \/ s = js "https://" ++ c :: rest).

(** The request [shortenUrl] sends from a state. *)
Definition shorten_request (BACKEND_URL : option jsstring) (st : State) : Event :=
  HttpPost (interpolate BACKEND_URL ++ js "/api/shorten")
    {| body_original_url := originalUrl st;
       body_custom_code := custom_code_field (customCode st) |}.

(** An environment in which every request fails for want of a network and
    the user cancels every dialog. *)
Definition offline : Oracle :=
  {| on_get := fun _ => Rejected {| response := None |};
     on_post := fun _ _ => Rejected {| response := None |};
     on_delete := fun _ => Rejected {| response := None |};
     on_buttons := fun _ _ => Cancel |}.

Definition typed (url code : jsstring) : State :=
  setCustomCode code (setOriginalUrl url initialState).

(** A rejection whose response carries the given [detail]. *)
Definition with_detail (d : jsstring) : AxiosError :=
  {| response := Some {| data := Some {| detail := Some d |} |} |}.

(** An environment that gives the same reply to every request of a kind. *)
Definition replying (post : Reply URL) (del : Reply unit)
    (get : Reply (list URL)) (button : Button) : Oracle :=
  {| on_get := fun _ => get;
     on_post := fun _ _ => post;
     on_delete := fun _ => del;
     on_buttons := fun _ _ => button |}.

Definition record (code url created : jsstring) : URL :=
  {| original_url := url; short_code := code; clicks := 0;
     created_at := created; qr_code := []; custom := false |}.

(** The list is ordered by creation time, newest first; [instant] reads the
    time a [created_at] text denotes. *)
Definition newest_first (instant : jsstring -> Z) (l : list URL) : Prop :=
  StronglySorted (fun a b => (instant (created_at b) <= instant (created_at a))%Z) l.

(** The number a text of decimal digits denotes. *)
Definition decimal (s : jsstring) : Z :=
  foldl (fun acc c => (10 * acc + (Z.of_N c - 48))%Z) 0%Z s.


(** A session given by its actions, each with what the surroundings decide
    while it runs. *)
Definition session (BACKEND_URL : option jsstring) (ext : Service.Externals)
    (script : list (Action * Env)) (s : State * list Service.UrlRecord) :
    State * list Service.UrlRecord :=
  foldl (fun s step =>
           let out := run (serve BACKEND_URL ext step.2)
                        (perform BACKEND_URL step.1 s.1) (s.2, []) in
           (out.1, out.2.1))
    s script.

(** Surroundings for the examples: a QR encoder that always answers, single
    digit timestamps, and the texts of the errors. *)
Definition demo : Service.Externals :=
  {| Service.QrEncoder_encode := fun text => Some (js "qr:" ++ text);
     Service.serialise := fun z => [Z.to_N (z + 48)];
     Service.error_detail := fun e =>
       match e with
       | Service.ValidationError Service.InvalidUrl => js "Invalid URL"
       | Service.ValidationError Service.InvalidCode => js "Invalid custom code"
       | Service.AlreadyExists => js "Custom code already exists"
       | Service.CodeSpaceExhausted => js "Could not generate a code"
       | Service.NotFound => js "URL not found"
       | Service.StoreUnavailable => js "Store unavailable"
       end;
     Service.base := js "https://sho.rt/api/" |}.

Definition at_time (z : Z) (button : Button) : Env :=
  {| now := z; rand := fun i => N.of_nat i; available := true; press := button |}.

(** A session that creates a link under a custom code and one under a
    generated code. *)
Definition two_links : list (Action * Env) :=
  [(Mount, at_time 0 Cancel);
   (ChangeOriginalUrl (js "https://example.com/a"), at_time 1 Cancel);
   (ChangeCustomCode (js "abc"), at_time 1 Cancel);
   (PressShorten, at_time 1 Cancel);
   (ChangeOriginalUrl (js "https://example.com/b"), at_time 2 Cancel);
   (PressShorten, at_time 2 Cancel)].

(** ** The rest of the screen *)

(** The QR modal: [visible={selectedQR !== null}], and inside it
    [{selectedQR && <Image source={{ uri: selectedQR }} />}]. *)
Definition modalVisible (st : State) : bool :=
  match selectedQR st with Some _ => true | None => false end.

Definition modalImage (st : State) : option jsstring :=
  match selectedQR st with
  | Some uri => if truthy uri then Some uri else None
  | None => None
  end.

(** The replies a statement assumes of the environment. *)
Definition confirms (o : Oracle) : Prop :=
  on_buttons o (js "Delete URL")
    (js "Are you sure you want to delete this shortened URL?") = Delete.

Definition deletes (BACKEND_URL : option jsstring) (o : Oracle) (shortCode : jsstring) : Prop :=
  on_delete o (interpolate BACKEND_URL ++ js "/api/urls/" ++ shortCode) = Fulfilled tt.

Definition post_reply (BACKEND_URL : option jsstring) (o : Oracle) (st : State) : Reply URL :=
  on_post o (interpolate BACKEND_URL ++ js "/api/shorten")
    {| body_original_url := originalUrl st;
       body_custom_code := custom_code_field (customCode st) |}.

(** The effects of a handler and the state it returns, for scripted replies. *)
Definition effects {A : Type} (o : Oracle) (p : Prog A) : list Event :=
  (run (scripted o) p []).2.

Definition result {A : Type} (o : Oracle) (p : Prog A) : A :=
  (run (scripted o) p []).1.

(** The screen after a script of user actions, each run to completion
    against the replies that come with it. *)
Definition play (BACKEND_URL : option jsstring) (script : list (Action * Oracle))
    (st : State) : State :=
  foldl (fun st step => result step.2 (perform BACKEND_URL step.1 st)) st script.

Definition is_delete (ev : Event) : bool :=
  match ev with HttpDelete _ => true | _ => false end.

Definition blank (s : jsstring) : bool := forallb trimmable s.

(** The button the user presses in the dialog of [deleteUrl]. *)
Definition pressed (o : Oracle) : Button :=
  on_buttons o (js "Delete URL")
    (js "Are you sure you want to delete this shortened URL?").



(** * Properties *)

(** ** Strings *)

Lemma trimStart_nil (s : jsstring) :
  trimStart s = [] <-> forallb trimmable s = true.
Proof.
  induction s as [|c s IH]; simpl; [done|].
  destruct (trimmable c); simpl; [done|]. split; discriminate.
Qed.

Lemma trimStart_all (s : jsstring) :
  forallb trimmable (trimStart s) = true <-> forallb trimmable s = true.
Proof.
  induction s as [|c s IH]; simpl; [done|].
  destruct (trimmable c) eqn:Hc; simpl; [done|]. by rewrite Hc.
Qed.

Lemma forallb_rev (f : N -> bool) (s : jsstring) :
  forallb f (rev s) = forallb f s.
Proof.
  induction s as [|c s IH]; simpl; [done|].
  rewrite forallb_app, IH. simpl. rewrite andb_true_r. apply andb_comm.
Qed.

Lemma trim_nil (s : jsstring) : trim s = [] <-> forallb trimmable s = true.
Proof.
  unfold trim, trimEnd.
  rewrite <- trimStart_all, <- (forallb_rev _ (trimStart s)), <- trimStart_nil.
  split; intros H.
  - apply (f_equal (@rev N)) in H. by rewrite rev_involutive in H.
  - by rewrite H.
Qed.

Lemma truthy_trim (s : jsstring) :
  truthy (trim s) = negb (forallb trimmable s).
Proof.
  destruct (forallb trimmable s) eqn:H.
  - apply trim_nil in H. by rewrite H.
  - destruct (trim s) eqn:Ht; [|done].
    apply trim_nil in Ht. congruence.
Qed.

Lemma stripPrefix_app (p s : jsstring) : stripPrefix p (p ++ s) = Some s.
Proof.
  induction p as [|a p IH]; simpl; [done|]. by rewrite N.eqb_refl.
Qed.

(** ** The matcher finds what the pattern denotes *)
Module RegexFacts.
Import Regex.

Lemma nullable_matches r : nullable r = true <-> matches r [].
Proof.
  split.
  - induction r; simpl; intros H; try discriminate.
    + constructor.
    + apply andb_true_iff in H as [H1 H2].
      change (@nil N) with (@nil N ++ []). constructor; auto.
    + apply orb_true_iff in H as [H|H]; [apply m_alt_l | apply m_alt_r]; auto.
    + constructor.
  - intros H. remember [] as w eqn:Hw.
    induction H; simpl; try discriminate; try done.
    + apply app_eq_nil in Hw as [-> ->]. by rewrite IHmatches1, IHmatches2.
    + by rewrite IHmatches.
    + rewrite IHmatches by done. apply orb_true_r.
Qed.

Lemma deriv_sound c r w : matches (deriv c r) w -> matches r (c :: w).
Proof.
  revert w. induction r; simpl; intros w H.
  - inversion H.
  - inversion H.
  - destruct (N.eqb_spec c c0) as [->|]; inversion H; subst. constructor.
  - destruct (lineTerminator c) eqn:Hc; inversion H; subst. by constructor.
  - destruct (nullable r1) eqn:Hn.
    + inversion H as [| | | | ? ? ? H1 | ? ? ? H2 | |]; subst.
      * inversion H1; subst. change (c :: u ++ v) with ((c :: u) ++ v).
        constructor; auto.
      * change (c :: w) with ([] ++ c :: w).
        constructor; [by apply nullable_matches | auto].
    + inversion H; subst. change (c :: u ++ v) with ((c :: u) ++ v).
      constructor; auto.
  - inversion H; subst; [apply m_alt_l | apply m_alt_r]; auto.
  - inversion H; subst. change (c :: u ++ v) with ((c :: u) ++ v).
    constructor; auto.
Qed.

Lemma deriv_complete c r w : matches r (c :: w) -> matches (deriv c r) w.
Proof.
  intros H. remember (c :: w) as s eqn:Hs. revert w Hs.
  induction H; intros w Hs; simpl; try discriminate.
  - injection Hs as -> <-. rewrite N.eqb_refl. constructor.
  - injection Hs as -> <-. rewrite H. constructor.
  - destruct u as [|d u]; simpl in Hs.
    + subst v. apply nullable_matches in H as ->.
      apply m_alt_r. by apply IHmatches2.
    + injection Hs as -> <-.
      assert (matches (Seq (deriv c r1) r2) (u ++ v)) by (constructor; auto).
      destruct (nullable r1); [by apply m_alt_l | done].
  - apply m_alt_l. auto.
  - apply m_alt_r. auto.
  - destruct u as [|d u]; simpl in Hs.
    + subst v. by apply IHmatches2.
    + injection Hs as -> <-. constructor; auto.
Qed.

Lemma test_at_start_found r s : test_at_start r s = true <-> found_at_start r s.
Proof.
  revert r. induction s as [|c s IH]; intros r; simpl.
  - rewrite orb_false_r, nullable_matches. split.
    + intros H. by exists [], [].
    + intros (p & q & Hpq & H). symmetry in Hpq.
      apply app_eq_nil in Hpq as [-> _]. done.
  - rewrite orb_true_iff, IH, nullable_matches. split.
    + intros [H|(p & q & -> & H)].
      * by exists [], (c :: s).
      * exists (c :: p), q. split; [done|]. by apply deriv_sound.
    + intros (p & q & Hpq & H). destruct p as [|d p]; [by left|].
      injection Hpq as <- ->. right. exists p, q. split; [done|].
      by apply deriv_complete.
Qed.

Lemma matches_Seq r1 r2 w :
  matches (Seq r1 r2) w <-> exists u v, w = u ++ v /\ matches r1 u /\ matches r2 v.
Proof.
  split.
  - inversion 1; subst. eauto.
  - intros (u & v & -> & H1 & H2). by constructor.
Qed.

Lemma matches_Opt r w : matches (Opt r) w <-> matches r w \/ w = [].
Proof.
  split.
  - inversion 1 as [| | | |? ? ? H1|? ? ? H1| |]; subst; [by left|].
    inversion H1. by right.
  - intros [H| ->]; [by apply m_alt_l | apply m_alt_r; constructor].
Qed.

Lemma matches_Chr c w : matches (Chr c) w <-> w = [c].
Proof. split; [by inversion 1 | intros ->; constructor]. Qed.

Lemma matches_Lit (s w : jsstring) : matches (Lit s) w <-> w = s.
Proof.
  revert w. induction s as [|c s IH]; intros w; simpl.
  - split; [by inversion 1 | intros ->; constructor].
  - split.
    + inversion 1 as [| | |? ? ? ? H1 H2| | | |]; subst.
      inversion H1; subst. apply IH in H2 as ->. done.
    + intros ->. change (c :: s) with ([c] ++ s).
      constructor; [constructor | by apply IH].
Qed.

Lemma matches_Plus_Dot (w : jsstring) :
  matches (Plus Dot) w -> exists c rest, lineTerminator c = false /\ w = c :: rest.
Proof.
  inversion 1 as [| | |? ? ? ? H1 H2| | | |]; subst.
  inversion H1; subst. eauto.
Qed.

End RegexFacts.

Lemma url_pattern_found (s : jsstring) :
  Regex.found_at_start url_pattern s <-> starts_like_url s.
Proof.
  unfold Regex.found_at_start, starts_like_url, url_pattern. split.
  - intros (p & q & -> & H).
    apply RegexFacts.matches_Seq in H as (u1 & v1 & -> & H1 & H).
    apply RegexFacts.matches_Seq in H as (u2 & v2 & -> & H2 & H).
    apply RegexFacts.matches_Seq in H as (u3 & v3 & -> & H3 & H).
    apply RegexFacts.matches_Lit in H1 as ->, H3 as ->.
    apply RegexFacts.matches_Plus_Dot in H as (c & rest & Hc & ->).
    exists c, (rest ++ q). split; [done|].
    apply RegexFacts.matches_Opt in H2 as [H2| ->].
    + apply RegexFacts.matches_Chr in H2 as ->. right.
      by rewrite <- !app_assoc.
    + left. by rewrite <- !app_assoc.
  - assert (Hdot : forall c, lineTerminator c = false ->
               Regex.matches (Regex.Plus Regex.Dot) [c]).
    { intros c Hc. change [c] with ([c] ++ []). constructor; by constructor. }
    intros (c & rest & Hc & [->| ->]).
    + exists (js "http://" ++ [c]), rest. split; [by rewrite <- app_assoc|].
      apply RegexFacts.matches_Seq. exists (js "http"), (js "://" ++ [c]).
      split; [done|]. split; [by apply RegexFacts.matches_Lit|].
      apply RegexFacts.matches_Seq. exists [], (js "://" ++ [c]).
      split; [done|]. split; [apply RegexFacts.matches_Opt; by right|].
      apply RegexFacts.matches_Seq. exists (js "://"), [c].
      split; [done|]. split; [by apply RegexFacts.matches_Lit | by apply Hdot].
    + exists (js "https://" ++ [c]), rest. split; [by rewrite <- app_assoc|].
      apply RegexFacts.matches_Seq. exists (js "http"), (js "s://" ++ [c]).
      split; [done|]. split; [by apply RegexFacts.matches_Lit|].
      apply RegexFacts.matches_Seq. exists [115], (js "://" ++ [c]).
      split; [done|].
      split; [apply RegexFacts.matches_Opt; left; by apply RegexFacts.matches_Chr|].
      apply RegexFacts.matches_Seq. exists (js "://"), [c].
      split; [done|]. split; [by apply RegexFacts.matches_Lit | by apply Hdot].
Qed.

Example url_pattern_http : Regex.test_at_start url_pattern (js "http://a") = true.
Proof. reflexivity. Qed.

Example url_pattern_https_newline :
  Regex.test_at_start url_pattern (js "https://" ++ [10]) = false.
Proof. reflexivity. Qed.

Example url_pattern_bare_scheme : Regex.test_at_start url_pattern (js "https://") = false.
Proof. reflexivity. Qed.

Lemma url_pattern_test (s : jsstring) :
  Regex.test_at_start url_pattern s = true <-> starts_like_url s.
Proof. by rewrite RegexFacts.test_at_start_found, url_pattern_found. Qed.

Lemma blank_is_no_url (s : jsstring) :
  forallb trimmable s = true -> Regex.test_at_start url_pattern s = false.
Proof.
  intros Hb. apply not_true_is_false. intros H.
  apply url_pattern_test in H as (c & rest & _ & [->| ->]); discriminate Hb.
Qed.

(** ** The handlers, run against scripted replies *)
Section Scripted.

Variable BACKEND_URL : option jsstring.
Variable o : Oracle.

Lemma shortenUrl_invalid st trace :
  Regex.test_at_start url_pattern (originalUrl st) = false ->
  exists message,
    run (scripted o) (shortenUrl BACKEND_URL st) trace
    = (st, trace ++ [Alerted (js "Error") message]).
Proof.
  intros Ht. unfold shortenUrl. rewrite truthy_trim, negb_involutive, Ht.
  destruct (forallb trimmable (originalUrl st)); simpl; eauto.
Qed.

Lemma shortenUrl_valid st trace :
  Regex.test_at_start url_pattern (originalUrl st) = true ->
  run (scripted o) (shortenUrl BACKEND_URL st) trace
  = match on_post o (interpolate BACKEND_URL ++ js "/api/shorten")
            {| body_original_url := originalUrl st;
               body_custom_code := custom_code_field (customCode st) |} with
    | Fulfilled response_data =>
        (setLoading false
           (setShowCustomCode false
              (setCustomCode []
                 (setOriginalUrl []
                    (setUrls (response_data :: urls st) (setLoading true st))))),
         trace ++ [shorten_request BACKEND_URL st;
                   Alerted (js "Success") (js "URL shortened successfully!")])
    | Rejected error =>
        (setLoading false (setLoading true st),
         trace ++ [shorten_request BACKEND_URL st;
                   Logged (js "Error shortening URL:");
                   Alerted (js "Error") (shorten_message error)])
    end.
Proof.
  intros Ht. unfold shortenUrl. rewrite truthy_trim, negb_involutive, Ht.
  destruct (forallb trimmable (originalUrl st)) eqn:Hb.
  { apply blank_is_no_url in Hb. congruence. }
  simpl. unfold shorten_request.
  destruct (on_post o _ _); simpl; by rewrite <- !app_assoc.
Qed.

End Scripted.

(** ** Validation of the URL by [shortenUrl] *)

(** C1: [shortenUrl] sends its POST request exactly when the text of the URL
    field matches [/^https?:\/\/.+/]; when it does not match (the empty and
    the blank text included) the user is shown an alert titled "Error", no
    request of any kind is sent, and the list of records is unchanged. *)
Theorem shortenUrl_requests_iff_url_matches
    (BACKEND_URL : option jsstring) (o : Oracle) (st : State) :
  let out := run (scripted o) (shortenUrl BACKEND_URL st) [] in
  (Exists (fun ev => is_post ev = true) out.2
   <-> Regex.found_at_start url_pattern (originalUrl st)) /\
  (~ Regex.found_at_start url_pattern (originalUrl st) ->
   (exists message, out.2 = [Alerted (js "Error") message]) /\
   Forall (fun ev => is_request ev = false) out.2 /\
   urls out.1 = urls st /\ out.1 = st).
Proof.
  intros out. subst out. rewrite <- RegexFacts.test_at_start_found.
  destruct (Regex.test_at_start url_pattern (originalUrl st)) eqn:Ht.
  - split; [|intros []; done].
    split; [done|intros _]. rewrite (shortenUrl_valid _ _ _ _ Ht).
    destruct (on_post o _ _); simpl; by apply Exists_cons_hd.
  - destruct (shortenUrl_invalid BACKEND_URL o st [] Ht) as [message ->]. simpl.
    split.
    + split; [|done]. intros H. apply Exists_cons in H as [H|H];
        [discriminate H | by apply Exists_nil in H].
    + intros _. split; [by exists message|]. split; [|done].
      by repeat constructor.
Qed.

Lemma shortenUrl_requests_iff_url_matches_witness :
  let out := run (scripted offline) (shortenUrl None (typed (js "not-a-url") [])) [] in
  (exists message, out.2 = [Alerted (js "Error") message]) /\
  Forall (fun ev => is_request ev = false) out.2 /\
  urls out.1 = urls (typed (js "not-a-url") []) /\ out.1 = typed (js "not-a-url") [].
Proof.
  apply (proj2 (shortenUrl_requests_iff_url_matches None offline (typed (js "not-a-url") []))).
  intros H. apply RegexFacts.test_at_start_found in H. vm_compute in H. discriminate H.
Defined.

Example shortenUrl_empty :
  run (scripted offline) (shortenUrl None (typed [] [])) []
  = (typed [] [], [Alerted (js "Error") (js "Please enter a URL")]).
Proof. reflexivity. Qed.

Example shortenUrl_blank :
  run (scripted offline) (shortenUrl None (typed (js "   ") [])) []
  = (typed (js "   ") [], [Alerted (js "Error") (js "Please enter a URL")]).
Proof. reflexivity. Qed.

Example shortenUrl_not_a_url :
  run (scripted offline) (shortenUrl None (typed (js "not-a-url") [])) []
  = (typed (js "not-a-url") [],
     [Alerted (js "Error")
        (js "Please enter a valid URL (must start with http:// or https://)")]).
Proof. reflexivity. Qed.

(** ** Failed requests *)

(** C4, as stated, fails when the detail of the error is the empty string:
    the alert shows the generic message instead of the detail. *)
Lemma shortenUrl_empty_detail_not_shown :
  let error := with_detail [] in
  let o := replying (Rejected error) (Fulfilled tt) (Fulfilled []) Cancel in
  let st := typed (js "http://a") (js "abc") in
  let out := run (scripted o) (shortenUrl None st) [] in
  response_detail error = Some [] /\
  out.2 = [shorten_request None st; Logged (js "Error shortening URL:");
           Alerted (js "Error") (js "Failed to shorten URL")] /\
  ~ In (Alerted (js "Error") []) out.2.
Proof.
  split; [reflexivity|]. split; [reflexivity|].
  intros [H|[H|[H|[]]]]; discriminate H.
Qed.

(** C4, amended: when the POST request of [shortenUrl] is rejected, the list
    of records is left as it was (so every code still goes with the URL it
    had), and the alert titled "Error" shows the detail of the error as it
    came when that detail is a non-empty string, and the text "Failed to
    shorten URL" when the error has no detail or an empty one. *)
Theorem shortenUrl_failure_keeps_list
    (BACKEND_URL : option jsstring) (o : Oracle) (st : State) (error : AxiosError) :
  Regex.found_at_start url_pattern (originalUrl st) ->
  on_post o (interpolate BACKEND_URL ++ js "/api/shorten")
    {| body_original_url := originalUrl st;
       body_custom_code := custom_code_field (customCode st) |} = Rejected error ->
  let out := run (scripted o) (shortenUrl BACKEND_URL st) [] in
  urls out.1 = urls st /\
  exists message,
    out.2 = [shorten_request BACKEND_URL st; Logged (js "Error shortening URL:");
             Alerted (js "Error") message] /\
    (forall d, response_detail error = Some d -> d <> [] -> message = d) /\
    (response_detail error = None \/ response_detail error = Some [] ->
     message = js "Failed to shorten URL").
Proof.
  intros Hurl Hpost out. subst out.
  apply RegexFacts.test_at_start_found in Hurl.
  rewrite (shortenUrl_valid _ _ _ _ Hurl), Hpost. simpl.
  split; [done|]. exists (shorten_message error). split; [done|].
  unfold shorten_message. split.
  - intros d -> Hd. by destruct d.
  - by intros [-> | ->].
Qed.

Lemma shortenUrl_failure_keeps_list_witness :
  let error := with_detail (js "Custom code already exists") in
  let o := replying (Rejected error) (Fulfilled tt) (Fulfilled []) Cancel in
  let st := setUrls [record (js "abc") (js "http://a") (js "1")]
              (typed (js "http://b") (js "abc")) in
  let out := run (scripted o) (shortenUrl None st) [] in
  urls out.1 = urls st /\
  exists message,
    out.2 = [shorten_request None st; Logged (js "Error shortening URL:");
             Alerted (js "Error") message] /\
    (forall d, response_detail error = Some d -> d <> [] -> message = d) /\
    (response_detail error = None \/ response_detail error = Some [] ->
     message = js "Failed to shorten URL").
Proof.
  apply (shortenUrl_failure_keeps_list None
           (replying (Rejected (with_detail (js "Custom code already exists")))
              (Fulfilled tt) (Fulfilled []) Cancel)
           (setUrls [record (js "abc") (js "http://a") (js "1")]
              (typed (js "http://b") (js "abc")))
           (with_detail (js "Custom code already exists"))).
  - apply RegexFacts.test_at_start_found. reflexivity.
  - reflexivity.
Defined.

Example shortenUrl_detail_shown :
  (run (scripted (replying (Rejected (with_detail (js "Custom code already exists")))
                    (Fulfilled tt) (Fulfilled []) Cancel))
     (shortenUrl None (typed (js "http://b") (js "abc"))) []).2
  = [shorten_request None (typed (js "http://b") (js "abc"));
     Logged (js "Error shortening URL:");
     Alerted (js "Error") (js "Custom code already exists")].
Proof. reflexivity. Qed.

(** ** The custom code field *)

Lemma custom_code_field_blank (code : jsstring) :
  forallb trimmable code = true -> custom_code_field code = None.
Proof. intros H. unfold custom_code_field. by rewrite truthy_trim, H. Qed.

Lemma custom_code_field_given (code : jsstring) :
  forallb trimmable code = false -> custom_code_field code = Some (trim code).
Proof. intros H. unfold custom_code_field. by rewrite truthy_trim, H. Qed.

(** C9: when the custom code field is empty or holds only white space, the
    request [shortenUrl] sends carries [custom_code: null]; nothing is
    rejected on the client and no alert precedes the request. *)
Theorem shortenUrl_blank_custom_code_is_null
    (BACKEND_URL : option jsstring) (o : Oracle) (st : State) :
  forallb trimmable (customCode st) = true ->
  Regex.found_at_start url_pattern (originalUrl st) ->
  exists rest,
    (run (scripted o) (shortenUrl BACKEND_URL st) []).2
    = HttpPost (interpolate BACKEND_URL ++ js "/api/shorten")
        {| body_original_url := originalUrl st; body_custom_code := None |} :: rest.
Proof.
  intros Hblank Hurl. apply RegexFacts.test_at_start_found in Hurl.
  rewrite (shortenUrl_valid _ _ _ _ Hurl). unfold shorten_request.
  rewrite (custom_code_field_blank _ Hblank).
  destruct (on_post o _ _); simpl; eauto.
Qed.

Lemma shortenUrl_blank_custom_code_is_null_witness :
  exists rest,
    (run (scripted offline) (shortenUrl None (typed (js "https://example.com/a") (js "  "))) []).2
    = HttpPost (js "undefined/api/shorten")
        {| body_original_url := js "https://example.com/a";
           body_custom_code := None |} :: rest.
Proof.
  apply (shortenUrl_blank_custom_code_is_null None offline
           (typed (js "https://example.com/a") (js "  "))).
  - reflexivity.
  - apply RegexFacts.test_at_start_found. reflexivity.
Defined.

(** ** Deleting a record *)
Section ScriptedDelete.

Variable BACKEND_URL : option jsstring.
Variable o : Oracle.

Lemma deleteUrl_scripted shortCode st trace :
  run (scripted o) (deleteUrl BACKEND_URL shortCode st) trace
  = let asked := Asked (js "Delete URL")
                   (js "Are you sure you want to delete this shortened URL?") in
    let request := HttpDelete (interpolate BACKEND_URL ++ js "/api/urls/" ++ shortCode) in
    match on_buttons o (js "Delete URL")
            (js "Are you sure you want to delete this shortened URL?") with
    | Cancel => (st, trace ++ [asked])
    | Delete =>
        match on_delete o (interpolate BACKEND_URL ++ js "/api/urls/" ++ shortCode) with
        | Fulfilled _ =>
            (setUrls (filter (fun url => short_code url ≠ shortCode) (urls st)) st,
             trace ++ [asked; request;
                       Alerted (js "Success") (js "URL deleted successfully")])
        | Rejected _ =>
            (st, trace ++ [asked; request; Logged (js "Error deleting URL:");
                           Alerted (js "Error") (js "Failed to delete URL")])
        end
    end.
Proof.
  unfold deleteUrl. simpl.
  destruct (on_buttons o _ _); simpl; [done|].
  destruct (on_delete o _); simpl; by rewrite <- !app_assoc.
Qed.

Lemma fetchUrls_scripted st trace :
  run (scripted o) (fetchUrls BACKEND_URL st) trace
  = let request := HttpGet (interpolate BACKEND_URL ++ js "/api/urls") in
    match on_get o (interpolate BACKEND_URL ++ js "/api/urls") with
    | Fulfilled response_data =>
        (setFetchingUrls false (setUrls response_data (setFetchingUrls true st)),
         trace ++ [request])
    | Rejected _ =>
        (setFetchingUrls false (setFetchingUrls true st),
         trace ++ [request; Logged (js "Error fetching URLs:");
                   Alerted (js "Error") (js "Failed to fetch URLs")])
    end.
Proof.
  unfold fetchUrls. simpl.
  destruct (on_get o _); simpl; by rewrite <- ?app_assoc.
Qed.

End ScriptedDelete.

(** C5: when the user confirms and the DELETE request for code [c]
    succeeds, the new list is the old one without the records of code [c]:
    no record of code [c] remains, every record of another code is kept as
    it was, and the records kept are in their previous order. *)
Theorem deleteUrl_removes_exactly_the_code
    (BACKEND_URL : option jsstring) (o : Oracle) (st : State) (c : jsstring) :
  on_buttons o (js "Delete URL")
    (js "Are you sure you want to delete this shortened URL?") = Delete ->
  on_delete o (interpolate BACKEND_URL ++ js "/api/urls/" ++ c) = Fulfilled tt ->
  let after := urls (run (scripted o) (deleteUrl BACKEND_URL c st) []).1 in
  after = filter (fun url => short_code url ≠ c) (urls st) /\
  (forall url, In url after -> short_code url <> c) /\
  (forall url, In url (urls st) -> short_code url <> c -> In url after) /\
  sublist after (urls st).
Proof.
  intros Hb Hd after. subst after. rewrite deleteUrl_scripted, Hb, Hd. simpl.
  split; [done|]. split; [|split].
  - intros url H. apply list_elem_of_In, list_elem_of_filter in H. tauto.
  - intros url H Hc. apply list_elem_of_In, list_elem_of_filter.
    split; [done|]. by apply list_elem_of_In.
  - apply sublist_filter.
Qed.

Lemma deleteUrl_removes_exactly_the_code_witness :
  let st := setUrls [record (js "c3") (js "http://c") (js "3");
                     record (js "b2") (js "http://b") (js "2");
                     record (js "a1") (js "http://a") (js "1")] initialState in
  let after :=
    urls (run (scripted (replying (Rejected (with_detail [])) (Fulfilled tt)
                           (Fulfilled []) Delete))
            (deleteUrl None (js "b2") st) []).1 in
  after = filter (fun url => short_code url ≠ js "b2") (urls st) /\
  (forall url, In url after -> short_code url <> js "b2") /\
  (forall url, In url (urls st) -> short_code url <> js "b2" -> In url after) /\
  sublist after (urls st).
Proof.
  apply (deleteUrl_removes_exactly_the_code None
           (replying (Rejected (with_detail [])) (Fulfilled tt) (Fulfilled []) Delete)
           (setUrls [record (js "c3") (js "http://c") (js "3");
                     record (js "b2") (js "http://b") (js "2");
                     record (js "a1") (js "http://a") (js "1")] initialState)
           (js "b2")); reflexivity.
Defined.

Example deleteUrl_middle :
  urls (run (scripted (replying (Rejected (with_detail [])) (Fulfilled tt)
                         (Fulfilled []) Delete))
          (deleteUrl None (js "b2")
             (setUrls [record (js "c3") (js "http://c") (js "3");
                       record (js "b2") (js "http://b") (js "2");
                       record (js "a1") (js "http://a") (js "1")] initialState)) []).1
  = [record (js "c3") (js "http://c") (js "3");
     record (js "a1") (js "http://a") (js "1")].
Proof. vm_compute. reflexivity. Qed.

(** ** Order of the listing *)

Lemma newest_first_filter instant (P : URL -> Prop) `{!forall x, Decision (P x)} l :
  newest_first instant l -> newest_first instant (filter P l).
Proof.
  unfold newest_first. induction 1 as [|x l Hl IH Hx]; [constructor|].
  rewrite filter_cons. destruct (decide (P x)); [|done].
  constructor; [done|]. clear Hl. rename Hx into Hl.
  apply List.Forall_forall. intros y Hy.
  apply list_elem_of_In, list_elem_of_filter in Hy as [_ Hy].
  apply list_elem_of_In in Hy. by apply (proj1 (List.Forall_forall _ _) Hl).
Qed.

(** C6: take a list that is ordered by creation time, newest first, a
    service that creates records no older than any record listed, and that
    lists records newest first.  Then the list is still ordered newest first
    after [shortenUrl] (which puts the new record in front), after
    [deleteUrl] (which filters the list) and after [fetchUrls] (which
    replaces it). *)
Theorem listing_stays_newest_first
    (instant : jsstring -> Z) (BACKEND_URL : option jsstring) (o : Oracle) (st : State) :
  newest_first instant (urls st) ->
  (forall url body created, on_post o url body = Fulfilled created ->
     Forall (fun listed =>
               (instant (created_at listed) <= instant (created_at created))%Z)
       (urls st)) ->
  (forall url fetched, on_get o url = Fulfilled fetched -> newest_first instant fetched) ->
  newest_first instant (urls (run (scripted o) (shortenUrl BACKEND_URL st) []).1) /\
  (forall c, newest_first instant (urls (run (scripted o) (deleteUrl BACKEND_URL c st) []).1)) /\
  newest_first instant (urls (run (scripted o) (fetchUrls BACKEND_URL st) []).1).
Proof.
  intros Hsorted Hpost Hget. split; [|split].
  - destruct (Regex.test_at_start url_pattern (originalUrl st)) eqn:Ht.
    + rewrite (shortenUrl_valid _ _ _ _ Ht).
      destruct (on_post o _ _) as [created|error] eqn:Hreply; simpl; [|done].
      constructor; [done|]. eapply Hpost, Hreply.
    + by destruct (shortenUrl_invalid BACKEND_URL o st [] Ht) as [message ->].
  - intros c. rewrite deleteUrl_scripted. simpl.
    destruct (on_buttons o _ _); [done|].
    destruct (on_delete o _); simpl; [|done].
    by apply newest_first_filter.
  - rewrite fetchUrls_scripted. simpl.
    destruct (on_get o _) as [fetched|error] eqn:Hreply; simpl; [|done].
    eapply Hget, Hreply.
Qed.

Lemma listing_stays_newest_first_witness :
  let st := setUrls [record (js "b2") (js "http://b") (js "20260102");
                     record (js "a1") (js "http://a") (js "20251231")]
              (typed (js "http://c") []) in
  let o := replying (Fulfilled (record (js "c3") (js "http://c") (js "20260103")))
             (Fulfilled tt)
             (Fulfilled [record (js "c3") (js "http://c") (js "20260103");
                         record (js "b2") (js "http://b") (js "20260102")])
             Delete in
  newest_first decimal (urls (run (scripted o) (shortenUrl None st) []).1) /\
  (forall c, newest_first decimal (urls (run (scripted o) (deleteUrl None c st) []).1)) /\
  newest_first decimal (urls (run (scripted o) (fetchUrls None st) []).1).
Proof.
  apply (listing_stays_newest_first decimal None
           (replying (Fulfilled (record (js "c3") (js "http://c") (js "20260103")))
              (Fulfilled tt)
              (Fulfilled [record (js "c3") (js "http://c") (js "20260103");
                          record (js "b2") (js "http://b") (js "20260102")])
              Delete)
           (setUrls [record (js "b2") (js "http://b") (js "20260102");
                     record (js "a1") (js "http://a") (js "20251231")]
              (typed (js "http://c") []))).
  - repeat constructor; vm_compute; discriminate.
  - intros url body created H. injection H as <-.
    repeat constructor; vm_compute; discriminate.
  - intros url fetched H. injection H as <-.
    repeat constructor; vm_compute; discriminate.
Defined.

Example shortenUrl_prepends :
  short_code <$>
    urls (run (scripted (replying (Fulfilled (record (js "c3") (js "http://c") (js "3")))
                           (Fulfilled tt) (Fulfilled []) Cancel))
            (shortenUrl None
               (setUrls [record (js "b2") (js "http://b") (js "2")]
                  (typed (js "http://c") []))) []).1
  = [js "c3"; js "b2"].
Proof. reflexivity. Qed.

(** ** The short URL of a record *)

(** C7: with the base address [b] configured, the text shown under "Short
    URL:" on the card of a record and the text the Copy button puts on the
    clipboard are both [b ++ "/api/"] followed by the short code of the
    record; no other field of the record takes part. *)
Theorem short_url_is_base_then_code (b : jsstring) (o : Oracle) (url : URL) :
  let base := b ++ js "/api/" in
  getShortUrl (Some b) (short_code url) = base ++ short_code url /\
  cardShortUrl (Some b) url = base ++ short_code url /\
  run (scripted o) (onPressCopy (Some b) url) []
  = (tt, [Copied (base ++ short_code url);
          Alerted (js "Copied!") (js "Short URL copied to clipboard")]).
Proof.
  unfold getShortUrl, cardShortUrl, onPressCopy, copyToClipboard, getShortUrl.
  simpl. by rewrite <- !app_assoc.
Qed.

Example getShortUrl_abc :
  getShortUrl (Some (js "https://sho.rt")) (js "abc") = js "https://sho.rt/api/abc".
Proof. reflexivity. Qed.

(** When the environment variable is not set the template literal of
    [getShortUrl] spells [undefined], while the card renders nothing for
    it. *)
Example getShortUrl_unset :
  getShortUrl None (js "abc") = js "undefined/api/abc" /\
  cardShortUrl None (record (js "abc") (js "http://a") (js "1")) = js "/api/abc".
Proof. split; reflexivity. Qed.

(** ** Truncation of the displayed URL *)

Lemma substring_from_start (s : jsstring) (n : N) :
  substring s 0 n = take (N.to_nat n) s.
Proof.
  unfold substring. rewrite N.min_0_l. simpl. rewrite N.min_0_l, N.max_0_l, N.sub_0_r.
  destruct (N.min_spec n (N.of_nat (length s))) as [[Hlt ->]|[Hle ->]]; [done|].
  rewrite Nat2N.id, !take_ge; [done| lia |done].
Qed.

(** C10, as stated, fails on a text that is longer than the bound and ends,
    right after the bound, in "...": it is returned as it is. *)
Lemma truncateUrl_returns_longer_text_itself :
  let u := js "ab..." in
  2 < N.of_nat (length u) /\ truncateUrl u (Some 2) = u.
Proof. split; [vm_compute|]; reflexivity. Qed.

(** C10, amended: [truncateUrl(u, n)] returns [u] when [u] has at most [n]
    characters and the first [n] characters of [u] followed by "..."
    otherwise; what it returns is [u] itself exactly when [u] has at most
    [n] characters or the characters of [u] from the [n]-th on are "...";
    the result has at most [n + 3] characters and begins with the same [n]
    characters as [u]; the bound is 40 when it is omitted. *)
Theorem truncateUrl_spec (u : jsstring) (n : N) :
  let r := truncateUrl u (Some n) in
  (r = if N.of_nat (length u) <=? n then u else take (N.to_nat n) u ++ js "...") /\
  (r = u <-> N.of_nat (length u) <= n \/ drop (N.to_nat n) u = js "...") /\
  (N.of_nat (length r) <= n + 3) /\
  take (N.to_nat n) r = take (N.to_nat n) u /\
  truncateUrl u None = truncateUrl u (Some 40).
Proof.
  intros r. subst r. unfold truncateUrl. simpl. rewrite substring_from_start.
  split; [done|]. split; [|split; [|split; [|done]]].
  - destruct (N.leb_spec (N.of_nat (length u)) n) as [H|H].
    + split; [by left|done].
    + rewrite <- (take_drop (N.to_nat n) u) at 2. split.
      * intros Heq. apply app_inv_head in Heq. by right.
      * intros [Hle|Hd]; [lia|]. by rewrite Hd.
  - destruct (N.leb_spec (N.of_nat (length u)) n) as [H|H]; [lia|].
    rewrite length_app, length_take. simpl. lia.
  - destruct (N.leb_spec (N.of_nat (length u)) n) as [H|H]; [done|].
    rewrite take_app_le by (rewrite length_take; lia).
    by rewrite take_take, Nat.min_id.
Qed.

Example truncateUrl_short : truncateUrl (js "http://a") None = js "http://a".
Proof. reflexivity. Qed.

Example truncateUrl_long :
  truncateUrl (js "https://example.com/a/very/long/path") (Some 19)
  = js "https://example.com...".
Proof. reflexivity. Qed.

(** ** The service keeps its codes unique *)




Lemma shorten_rejects_invalid_code rand now url code t :
  Regex.test_at_start url_pattern url = true ->
  Service.validCustom code = false ->
  Service.shorten rand now url (Some code) t
  = inr (Service.ValidationError Service.InvalidCode).
Proof.
  intros Hurl Hcode. unfold Service.shorten, Service.validateCustom.
  by rewrite Hurl, Hcode.
Qed.

Lemma shorten_taken_code rand now url code t :
  Regex.test_at_start url_pattern url = true ->
  Service.validCustom code = true ->
  code ∈ Service.codes t ->
  Service.shorten rand now url (Some code) t = inr Service.AlreadyExists.
Proof.
  intros Hurl Hcode Hin.
  unfold Service.shorten, Service.validateCustom, Service.insertIfAbsent.
  rewrite Hurl, Hcode. simpl. by rewrite bool_decide_true.
Qed.







(** ** The handlers, run against the service *)
Section Served.

Variable BACKEND_URL : option jsstring.
Variable ext : Service.Externals.




End Served.

(** ** The invariant of a session *)
Section Invariant.

Variable BACKEND_URL : option jsstring.
Variable ext : Service.Externals.







End Invariant.


(** ** Uniqueness of the short codes *)

(** On its own the client puts the record of the reply in front of the list
    without looking at its code: the codes stay distinct exactly when the
    code it receives is not listed yet.  That it is not is the service's
    doing. *)
Lemma shortenUrl_distinct_iff_fresh
    (BACKEND_URL : option jsstring) (o : Oracle) (st : State) (created : URL) :
  Regex.test_at_start url_pattern (originalUrl st) = true ->
  on_post o (interpolate BACKEND_URL ++ js "/api/shorten")
    {| body_original_url := originalUrl st;
       body_custom_code := custom_code_field (customCode st) |} = Fulfilled created ->
  NoDup (short_code <$> urls st) ->
  NoDup (short_code <$> urls (run (scripted o) (shortenUrl BACKEND_URL st) []).1)
  <-> short_code created ∉ short_code <$> urls st.
Proof.
  intros Hurl Hpost Hl. rewrite (shortenUrl_valid _ _ _ _ Hurl), Hpost. simpl.
  rewrite NoDup_cons. tauto.
Qed.





Example two_links_codes :
  short_code <$> urls (session None demo two_links (initialState, [])).1
  = [js "ABCDEF"; js "abc"].
Proof. vm_compute. reflexivity. Qed.

Example taken_code_keeps_first_link :
  let s := session None demo
             (two_links ++
              [(ChangeOriginalUrl (js "https://example.com/c"), at_time 3 Cancel);
               (ChangeCustomCode (js "abc"), at_time 3 Cancel);
               (PressShorten, at_time 3 Cancel)])
             (initialState, []) in
  (fun r => (Service.shortCode r, Service.originalUrl r)) <$> s.2
  = [(js "abc", js "https://example.com/a"); (js "ABCDEF", js "https://example.com/b")].
Proof. vm_compute. reflexivity. Qed.

(** ** Validation of the custom code *)

Lemma trimmable_not_urlSafe (c : N) : trimmable c = true -> Service.urlSafe c = false.
Proof.
  intros H. assert (c <= 32 \/ 160 <= c) as Hrange.
  { unfold trimmable, whiteSpace, lineTerminator in H.
    repeat (apply orb_true_iff in H as [H|H]);
      try (apply andb_true_iff in H as [H _]; apply N.leb_le in H);
      try apply N.eqb_eq in H; lia. }
  apply not_true_is_false. unfold Service.urlSafe. intros Hs.
  repeat (apply orb_true_iff in Hs as [Hs|Hs]);
    try (apply andb_true_iff in Hs as [Hs1 Hs2]; apply N.leb_le in Hs1, Hs2);
    try apply N.eqb_eq in Hs; lia.
Qed.

Lemma validCustom_spec (code : jsstring) :
  Service.validCustom code = true <->
  (1 <= length code <= 32)%nat /\ Forall (fun c => Service.urlSafe c = true) code.
Proof.
  unfold Service.validCustom.
  rewrite !andb_true_iff, !Nat.leb_le, forallb_forall, Forall_forall.
  setoid_rewrite list_elem_of_In. tauto.
Qed.

Lemma validCustom_no_white_space (code : jsstring) :
  Exists (fun c => trimmable c = true) code -> Service.validCustom code = false.
Proof.
  intros Hex. apply not_true_is_false. intros Hv.
  apply validCustom_spec in Hv as [_ Hall].
  apply Exists_exists in Hex as (c & Hin & Hc).
  apply trimmable_not_urlSafe in Hc.
  rewrite Forall_forall in Hall. specialize (Hall c Hin). congruence.
Qed.

Section ServedShorten.

Variable BACKEND_URL : option jsstring.
Variable ext : Service.Externals.

Lemma serve_shortenUrl_valid env st t :
  Regex.test_at_start url_pattern (originalUrl st) = true ->
  available env = true ->
  run (serve BACKEND_URL ext env) (shortenUrl BACKEND_URL st) (t, [])
  = match Service.shorten (rand env) (now env) (originalUrl st)
            (custom_code_field (customCode st)) t with
    | inl (r, t') =>
        (setLoading false
           (setShowCustomCode false
              (setCustomCode []
                 (setOriginalUrl []
                    (setUrls (enrich ext r :: urls st) (setLoading true st))))),
         (t', [shorten_request BACKEND_URL st;
               Alerted (js "Success") (js "URL shortened successfully!")]))
    | inr err =>
        (setLoading false (setLoading true st),
         (t, [shorten_request BACKEND_URL st; Logged (js "Error shortening URL:");
              Alerted (js "Error") (shorten_message (failure ext err))]))
    end.
Proof.
  intros Ht Ha. unfold shortenUrl. rewrite truthy_trim, negb_involutive, Ht.
  destruct (forallb trimmable (originalUrl st)) eqn:Hb.
  { apply blank_is_no_url in Hb. congruence. }
  cbn -[js interpolate Service.shorten]. rewrite Ha.
  cbn -[js interpolate Service.shorten]. rewrite bool_decide_true by done.
  by destruct (Service.shorten _ _ _ _ t) as [[r t']|err].
Qed.

End ServedShorten.

(** C3, as stated, fails on a custom code made of white space, which is not
    rejected but dropped (the record gets a generated code), and on a code
    with white space around it, which is not rejected but trimmed and
    inserted. *)
Lemma blank_and_padded_custom_codes_are_not_rejected :
  (Service.validCustom (js " ") = false /\
   let out := run (serve None demo (at_time 1 Cancel))
                (shortenUrl None (typed (js "http://a") (js " "))) ([], []) in
   (fun url => (short_code url, custom url)) <$> urls out.1 = [(js "ABCDEF", false)] /\
   out.2.2 = [shorten_request None (typed (js "http://a") (js " "));
              Alerted (js "Success") (js "URL shortened successfully!")]) /\
  (Service.validCustom (js " abc ") = false /\
   let out := run (serve None demo (at_time 1 Cancel))
                (shortenUrl None (typed (js "http://a") (js " abc "))) ([], []) in
   (fun r => (Service.shortCode r, Service.isCustom r)) <$> out.2.1 = [(js "abc", true)] /\
   out.2.2 = [shorten_request None (typed (js "http://a") (js " abc "));
              Alerted (js "Success") (js "URL shortened successfully!")]).
Proof. vm_compute. repeat split. Qed.

(** C3, amended: [shortenUrl] trims the custom code field; a field left
    empty or blank stands for no custom code.  Otherwise the trimmed code is
    what the service receives, and unless it is 1 to 32 characters long over
    the URL-safe alphabet (letters, digits, [-], [_]) the service, when it
    can be reached, rejects it with the validation error for an invalid
    code: nothing is inserted in the table, the list is unchanged, and the
    alert titled "Error" shows that error. *)
Theorem invalid_custom_code_is_rejected
    (BACKEND_URL : option jsstring) (ext : Service.Externals) (env : Env)
    (st : State) (t : list Service.UrlRecord) :
  Regex.found_at_start url_pattern (originalUrl st) ->
  forallb trimmable (customCode st) = false ->
  ~ ((1 <= length (trim (customCode st)) <= 32)%nat /\
     Forall (fun c => Service.urlSafe c = true) (trim (customCode st))) ->
  available env = true ->
  let out := run (serve BACKEND_URL ext env) (shortenUrl BACKEND_URL st) (t, []) in
  out.2.1 = t /\
  urls out.1 = urls st /\
  out.2.2 = [HttpPost (interpolate BACKEND_URL ++ js "/api/shorten")
               {| body_original_url := originalUrl st;
                  body_custom_code := Some (trim (customCode st)) |};
             Logged (js "Error shortening URL:");
             Alerted (js "Error")
               (shorten_message
                  (failure ext (Service.ValidationError Service.InvalidCode)))].
Proof.
  intros Hurl Hgiven Hinvalid Ha out. subst out.
  rewrite <- validCustom_spec in Hinvalid. apply not_true_is_false in Hinvalid.
  apply RegexFacts.test_at_start_found in Hurl.
  rewrite (serve_shortenUrl_valid _ _ _ _ _ Hurl Ha). unfold shorten_request.
  rewrite (custom_code_field_given _ Hgiven).
  unfold Service.shorten, Service.validateCustom. by rewrite Hurl, Hinvalid.
Qed.

Lemma invalid_custom_code_is_rejected_witness :
  let st := typed (js "https://example.com/a") (js " a/b ") in
  let out := run (serve None demo (at_time 1 Cancel)) (shortenUrl None st) ([], []) in
  out.2.1 = [] /\
  urls out.1 = urls st /\
  out.2.2 = [HttpPost (interpolate None ++ js "/api/shorten")
               {| body_original_url := originalUrl st;
                  body_custom_code := Some (trim (customCode st)) |};
             Logged (js "Error shortening URL:");
             Alerted (js "Error")
               (shorten_message
                  (failure demo (Service.ValidationError Service.InvalidCode)))].
Proof.
  apply (invalid_custom_code_is_rejected None demo (at_time 1 Cancel)
           (typed (js "https://example.com/a") (js " a/b ")) []).
  - apply RegexFacts.test_at_start_found. reflexivity.
  - reflexivity.
  - rewrite <- validCustom_spec. vm_compute. discriminate.
  - reflexivity.
Defined.

Example inner_white_space_rejected :
  let out := run (serve None demo (at_time 1 Cancel))
               (shortenUrl None (typed (js "https://example.com/a") (js "a b"))) ([], []) in
  out.2.1 = [] /\
  last out.2.2 = Some (Alerted (js "Error") (js "Invalid custom code")).
Proof. vm_compute. split; reflexivity. Qed.

Example valid_custom_code_inserted :
  let out := run (serve None demo (at_time 1 Cancel))
               (shortenUrl None (typed (js "https://example.com/a") (js "my-link_1"))) ([], []) in
  (fun r => (Service.shortCode r, Service.isCustom r)) <$> out.2.1 = [(js "my-link_1", true)].
Proof. vm_compute. reflexivity. Qed.

(** * Further properties of the screen *)

(** ** What [shortenUrl] accepts and what it shows *)

Lemma starts_like_url_app (s t : jsstring) :
  starts_like_url s -> starts_like_url (s ++ t).
Proof.
  intros (c & rest & Hc & [->| ->]); exists c, (rest ++ t); split; try done.
  - left. by rewrite <- app_assoc.
  - right. by rewrite <- app_assoc.
Qed.

Lemma leading_white_space_is_no_url (c : N) (s : jsstring) :
  trimmable c = true -> Regex.test_at_start url_pattern (c :: s) = false.
Proof.
  intros Hc. apply not_true_is_false. intros H.
  apply url_pattern_test in H as (d & rest & _ & [H|H]);
    injection H as -> _; discriminate Hc.
Qed.

Lemma shortenUrl_invalid_exact BACKEND_URL o st trace :
  Regex.test_at_start url_pattern (originalUrl st) = false ->
  run (scripted o) (shortenUrl BACKEND_URL st) trace
  = (st, trace ++
         [Alerted (js "Error")
            (if blank (originalUrl st) then js "Please enter a URL"
             else js "Please enter a valid URL (must start with http:// or https://)")]).
Proof.
  intros Ht. unfold shortenUrl, blank. rewrite truthy_trim, negb_involutive, Ht.
  by destruct (forallb trimmable (originalUrl st)).
Qed.

Lemma shortenUrl_posts BACKEND_URL o st :
  Exists (fun ev => is_post ev = true) (effects o (shortenUrl BACKEND_URL st))
  <-> Regex.test_at_start url_pattern (originalUrl st) = true.
Proof.
  unfold effects.
  destruct (Regex.test_at_start url_pattern (originalUrl st)) eqn:Ht.
  - split; [done|intros _]. rewrite (shortenUrl_valid _ _ _ _ Ht).
    destruct (on_post o _ _); simpl; by apply Exists_cons_hd.
  - rewrite (shortenUrl_invalid_exact _ _ _ _ Ht). simpl. split; [|done].
    intros H. apply Exists_cons in H as [H|H]; [done|by apply Exists_nil in H].
Qed.

(** X1: the pattern has no anchor at its end, so whatever follows an
    accepted URL is accepted with it: if [shortenUrl] sends its request for
    a text, it sends it for that text followed by anything (spaces, line
    breaks, more text), and the body carries the longer text as typed. *)
Theorem shortenUrl_accepts_any_continuation
    (BACKEND_URL : option jsstring) (o : Oracle) (st : State) (more : jsstring) :
  Exists (fun ev => is_post ev = true) (effects o (shortenUrl BACKEND_URL st)) ->
  let st' := setOriginalUrl (originalUrl st ++ more) st in
  exists rest,
    effects o (shortenUrl BACKEND_URL st')
    = HttpPost (interpolate BACKEND_URL ++ js "/api/shorten")
        {| body_original_url := originalUrl st ++ more;
           body_custom_code := custom_code_field (customCode st) |} :: rest.
Proof.
  intros H st'. apply shortenUrl_posts, url_pattern_test in H.
  assert (Regex.test_at_start url_pattern (originalUrl st') = true) as Ht.
  { apply url_pattern_test. simpl. by apply starts_like_url_app. }
  unfold effects. rewrite (shortenUrl_valid _ _ _ _ Ht). unfold shorten_request.
  destruct (on_post o _ _); simpl; eauto.
Qed.

Lemma shortenUrl_accepts_any_continuation_witness :
  let st := typed (js "http://a") [] in
  let st' := setOriginalUrl (originalUrl st ++ js " b c") st in
  exists rest,
    effects offline (shortenUrl None st')
    = HttpPost (interpolate None ++ js "/api/shorten")
        {| body_original_url := originalUrl st ++ js " b c";
           body_custom_code := custom_code_field (customCode st) |} :: rest.
Proof.
  apply (shortenUrl_accepts_any_continuation None offline
           (typed (js "http://a") []) (js " b c")).
  vm_compute. apply Exists_cons_hd. reflexivity.
Defined.

(** X2: the pattern is tried on the text as typed, not on the trimmed
    text: a URL with a space, a tab or a line break in front of it is
    refused, with one alert titled "Error", no request, and the state left
    as it was. *)
Theorem shortenUrl_refuses_leading_white_space
    (BACKEND_URL : option jsstring) (o : Oracle) (st : State) (c : N) (s : jsstring) :
  trimmable c = true ->
  originalUrl st = c :: s ->
  (exists message, effects o (shortenUrl BACKEND_URL st) = [Alerted (js "Error") message]) /\
  result o (shortenUrl BACKEND_URL st) = st.
Proof.
  intros Hc Hs. unfold effects, result.
  rewrite shortenUrl_invalid_exact by (rewrite Hs; by apply leading_white_space_is_no_url).
  simpl. eauto.
Qed.

Lemma shortenUrl_refuses_leading_white_space_witness :
  let st := typed (js " https://example.com") [] in
  (exists message, effects offline (shortenUrl None st) = [Alerted (js "Error") message]) /\
  result offline (shortenUrl None st) = st.
Proof.
  apply (shortenUrl_refuses_leading_white_space None offline
           (typed (js " https://example.com") []) 32 (js "https://example.com"));
    reflexivity.
Defined.

(** X3: when the text of the URL field is not accepted, the message of the
    alert is "Please enter a URL" exactly when the text is empty or blank,
    and the message about [http://] and [https://] otherwise. *)
Theorem shortenUrl_message_of_refusal
    (BACKEND_URL : option jsstring) (o : Oracle) (st : State) :
  Regex.found_at_start url_pattern (originalUrl st) \/
  effects o (shortenUrl BACKEND_URL st)
  = [Alerted (js "Error")
       (if blank (originalUrl st) then js "Please enter a URL"
        else js "Please enter a valid URL (must start with http:// or https://)")].
Proof.
  destruct (Regex.test_at_start url_pattern (originalUrl st)) eqn:Ht.
  - left. by apply RegexFacts.test_at_start_found.
  - right. unfold effects. by rewrite shortenUrl_invalid_exact.
Qed.

(** ** What [shortenUrl] sends *)

Lemma trimStart_head (s : jsstring) c r : trimStart s = c :: r -> trimmable c = false.
Proof.
  induction s as [|a s IH]; simpl; [done|].
  destruct (trimmable a) eqn:Ha; [done|]. by intros [= <- _].
Qed.

Lemma trimStart_split (s : jsstring) :
  exists p, s = p ++ trimStart s /\ blank p = true.
Proof.
  induction s as [|a s (p & Hs & Hp)]; simpl; [by exists []|].
  destruct (trimmable a) eqn:Ha; [|by exists []].
  exists (a :: p). split; [by rewrite Hs at 1|]. unfold blank in *. simpl.
  by rewrite Ha, Hp.
Qed.

Lemma trimStart_trim (s : jsstring) :
  exists q, trimStart s = trim s ++ q /\ blank q = true.
Proof.
  destruct (trimStart_split (rev (trimStart s))) as (q' & Hr & Hq).
  exists (rev q'). split.
  - apply (f_equal (@rev N)) in Hr. rewrite rev_involutive, rev_app_distr in Hr.
    exact Hr.
  - unfold blank in *. by rewrite forallb_rev.
Qed.

Lemma trim_split (s : jsstring) :
  exists p q, s = p ++ trim s ++ q /\ blank p = true /\ blank q = true.
Proof.
  destruct (trimStart_split s) as (p & Hs & Hp).
  destruct (trimStart_trim s) as (q & Ht & Hq).
  exists p, q. by rewrite <- Ht.
Qed.

Lemma trim_head (s : jsstring) c r : trim s = c :: r -> trimmable c = false.
Proof.
  intros H. destruct (trimStart_trim s) as (q & Ht & _).
  rewrite H in Ht. by apply trimStart_head in Ht.
Qed.

Lemma trim_last (s : jsstring) d : last (trim s) = Some d -> trimmable d = false.
Proof.
  unfold trim, trimEnd.
  destruct (trimStart (rev (trimStart s))) as [|a w] eqn:Hw; simpl; [done|].
  rewrite last_snoc. intros [= <-]. by apply trimStart_head in Hw.
Qed.

Lemma custom_code_field_Some (code c : jsstring) :
  custom_code_field code = Some c -> c = trim code /\ c <> [].
Proof.
  unfold custom_code_field. destruct (trim code) eqn:Ht; simpl; [done|].
  by intros [= <-].
Qed.

Lemma custom_code_field_None (code : jsstring) :
  custom_code_field code = None -> blank code = true.
Proof.
  unfold custom_code_field, blank. rewrite truthy_trim.
  by destruct (forallb trimmable code).
Qed.

Lemma shortenUrl_post_is_shorten_request BACKEND_URL o st url body :
  In (HttpPost url body) (effects o (shortenUrl BACKEND_URL st)) ->
  HttpPost url body = shorten_request BACKEND_URL st.
Proof.
  unfold effects.
  destruct (Regex.test_at_start url_pattern (originalUrl st)) eqn:Ht.
  - rewrite (shortenUrl_valid _ _ _ _ Ht).
    destruct (on_post o _ _); simpl; intros H;
      repeat (destruct H as [H|H]; [by injection H as <- <- || discriminate H|]);
      destruct H.
  - rewrite (shortenUrl_invalid_exact _ _ _ _ Ht). simpl.
    intros [H|[]]. discriminate H.
Qed.

(** X4: every request [shortenUrl] sends carries the URL exactly as typed
    (white space at its end included) and, for the custom code, either
    [null] -- when the field is empty or blank -- or the text of the field
    without the white space around it: a non-empty string that neither
    begins nor ends with white space. *)
Theorem shortenUrl_request_body
    (BACKEND_URL : option jsstring) (o : Oracle) (st : State)
    (url : jsstring) (body : ShortenBody) :
  In (HttpPost url body) (effects o (shortenUrl BACKEND_URL st)) ->
  url = interpolate BACKEND_URL ++ js "/api/shorten" /\
  body_original_url body = originalUrl st /\
  match body_custom_code body with
  | None => blank (customCode st) = true
  | Some code =>
      (exists before after,
          customCode st = before ++ code ++ after /\
          blank before = true /\ blank after = true) /\
      (exists first rest, code = first :: rest /\ trimmable first = false) /\
      (exists final, last code = Some final /\ trimmable final = false)
  end.
Proof.
  intros H. apply shortenUrl_post_is_shorten_request in H.
  injection H as -> ->. simpl. split; [done|]. split; [done|].
  destruct (custom_code_field (customCode st)) as [code|] eqn:Hf.
  - apply custom_code_field_Some in Hf as [-> Hne]. split; [|split].
    + apply trim_split.
    + destruct (trim (customCode st)) as [|a r] eqn:Ht; [done|].
      exists a, r. split; [done|]. by apply (trim_head _ _ _ Ht).
    + destruct (last (trim (customCode st))) as [d|] eqn:Hl.
      * exists d. split; [done|]. by apply (trim_last (customCode st)).
      * apply last_None in Hl. done.
  - by apply custom_code_field_None.
Qed.

Lemma shortenUrl_request_body_witness :
  let st := typed (js "https://example.com/a ") (js "  my code ") in
  let body := {| body_original_url := js "https://example.com/a ";
                 body_custom_code := Some (js "my code") |} in
  js "undefined/api/shorten" = interpolate None ++ js "/api/shorten" /\
  body_original_url body = originalUrl st /\
  match body_custom_code body with
  | None => blank (customCode st) = true
  | Some code =>
      (exists before after,
          customCode st = before ++ code ++ after /\
          blank before = true /\ blank after = true) /\
      (exists first rest, code = first :: rest /\ trimmable first = false) /\
      (exists final, last code = Some final /\ trimmable final = false)
  end.
Proof.
  apply (shortenUrl_request_body None offline
           (typed (js "https://example.com/a ") (js "  my code "))
           (js "undefined/api/shorten")
           {| body_original_url := js "https://example.com/a ";
              body_custom_code := Some (js "my code") |}).
  vm_compute. left. reflexivity.
Defined.

(** X5: what [shortenUrl] does depends on the two text fields only.  Two
    states with the same texts give the same effects, whatever their lists,
    flags and modal; in particular a custom code typed and then hidden with
    the toggle is still sent. *)
Theorem shortenUrl_reads_the_two_fields_only
    (BACKEND_URL : option jsstring) (o : Oracle) (st1 st2 : State) :
  originalUrl st1 = originalUrl st2 ->
  customCode st1 = customCode st2 ->
  effects o (shortenUrl BACKEND_URL st1) = effects o (shortenUrl BACKEND_URL st2).
Proof.
  intros Hu Hc. unfold effects.
  destruct (Regex.test_at_start url_pattern (originalUrl st1)) eqn:Ht.
  - rewrite (shortenUrl_valid _ _ st1 _ Ht).
    rewrite Hu in Ht. rewrite (shortenUrl_valid _ _ st2 _ Ht).
    unfold shorten_request. rewrite Hu, Hc.
    by destruct (on_post o _ _).
  - rewrite (shortenUrl_invalid_exact _ _ st1 _ Ht).
    rewrite Hu in Ht. rewrite (shortenUrl_invalid_exact _ _ st2 _ Ht).
    by rewrite Hu.
Qed.

Lemma shortenUrl_reads_the_two_fields_only_witness :
  effects offline (shortenUrl None (setShowCustomCode true (typed (js "http://a") (js "abc"))))
  = effects offline (shortenUrl None (setShowCustomCode false (typed (js "http://a") (js "abc")))).
Proof.
  apply (shortenUrl_reads_the_two_fields_only None offline
           (setShowCustomCode true (typed (js "http://a") (js "abc")))
           (setShowCustomCode false (typed (js "http://a") (js "abc")))); reflexivity.
Defined.

(** X6: once [shortenUrl] has sent its request, [loading] is false when it
    returns, whether the request succeeded or not.  After a success the new
    record is in front of the list, both text fields are empty and the
    custom code field is hidden; after a failure the list, the texts and the
    toggle are as the user left them.  The modal and the loader of the list
    are not touched. *)
Theorem shortenUrl_after_the_request
    (BACKEND_URL : option jsstring) (o : Oracle) (st : State) :
  Regex.found_at_start url_pattern (originalUrl st) ->
  let st' := result o (shortenUrl BACKEND_URL st) in
  loading st' = false /\
  fetchingUrls st' = fetchingUrls st /\
  selectedQR st' = selectedQR st /\
  match post_reply BACKEND_URL o st with
  | Fulfilled created =>
      urls st' = created :: urls st /\
      originalUrl st' = [] /\ customCode st' = [] /\ showCustomCode st' = false
  | Rejected _ =>
      urls st' = urls st /\
      originalUrl st' = originalUrl st /\ customCode st' = customCode st /\
      showCustomCode st' = showCustomCode st
  end.
Proof.
  intros Hurl st'. subst st'. apply RegexFacts.test_at_start_found in Hurl.
  unfold result, post_reply. rewrite (shortenUrl_valid _ _ _ _ Hurl).
  by destruct (on_post o _ _).
Qed.

Lemma shortenUrl_after_the_request_witness :
  let o := replying (Fulfilled (record (js "abc") (js "http://a") (js "1")))
             (Fulfilled tt) (Fulfilled []) Cancel in
  let st := setShowCustomCode true (typed (js "http://a") (js "abc")) in
  let st' := result o (shortenUrl None st) in
  loading st' = false /\
  fetchingUrls st' = fetchingUrls st /\
  selectedQR st' = selectedQR st /\
  match post_reply None o st with
  | Fulfilled created =>
      urls st' = created :: urls st /\
      originalUrl st' = [] /\ customCode st' = [] /\ showCustomCode st' = false
  | Rejected _ =>
      urls st' = urls st /\
      originalUrl st' = originalUrl st /\ customCode st' = customCode st /\
      showCustomCode st' = showCustomCode st
  end.
Proof.
  apply (shortenUrl_after_the_request None
           (replying (Fulfilled (record (js "abc") (js "http://a") (js "1")))
              (Fulfilled tt) (Fulfilled []) Cancel)
           (setShowCustomCode true (typed (js "http://a") (js "abc")))).
  apply RegexFacts.test_at_start_found. reflexivity.
Defined.

(** ** Refreshing the list *)

(** X7: [fetchUrls] sends one GET request and nothing else to the server;
    it never touches the text fields, the toggle, [loading] or the modal,
    and the loader of the list is off when it returns.  A successful refresh
    replaces the list by the one received, silently; a failed one keeps the
    list that was shown and raises one alert. *)
Theorem fetchUrls_outcome (BACKEND_URL : option jsstring) (o : Oracle) (st : State) :
  let st' := result o (fetchUrls BACKEND_URL st) in
  let request := HttpGet (interpolate BACKEND_URL ++ js "/api/urls") in
  fetchingUrls st' = false /\
  (originalUrl st' = originalUrl st /\ customCode st' = customCode st /\
   showCustomCode st' = showCustomCode st /\ loading st' = loading st /\
   selectedQR st' = selectedQR st) /\
  match on_get o (interpolate BACKEND_URL ++ js "/api/urls") with
  | Fulfilled fetched =>
      urls st' = fetched /\ effects o (fetchUrls BACKEND_URL st) = [request]
  | Rejected _ =>
      urls st' = urls st /\
      effects o (fetchUrls BACKEND_URL st)
      = [request; Logged (js "Error fetching URLs:");
         Alerted (js "Error") (js "Failed to fetch URLs")]
  end.
Proof.
  unfold result, effects. rewrite fetchUrls_scripted. simpl.
  by destruct (on_get o _).
Qed.

(** ** Deleting, continued *)

Lemma filter_id_iff {A : Type} (P : A -> Prop) `{!forall x, Decision (P x)} (l : list A) :
  filter P l = l <-> Forall P l.
Proof.
  induction l as [|x l IH].
  - split; [constructor|done].
  - rewrite filter_cons. destruct (decide (P x)) as [Hx|Hx].
    + rewrite Forall_cons. split.
      * intros [= Hl]. split; [done|]. by apply IH.
      * intros [_ Hl]. f_equal. by apply IH.
    + split.
      * intros Hl. pose proof (length_filter P l) as Hlen.
        rewrite Hl in Hlen. simpl in Hlen. lia.
      * intros Hl. apply Forall_cons in Hl as [Hl _]. done.
Qed.

Lemma deleteUrl_done BACKEND_URL o c st :
  confirms o -> deletes BACKEND_URL o c ->
  result o (deleteUrl BACKEND_URL c st)
  = setUrls (filter (fun url => short_code url ≠ c) (urls st)) st.
Proof.
  unfold confirms, deletes, result. intros Hb Hd.
  by rewrite deleteUrl_scripted, Hb, Hd.
Qed.

(** X8: [deleteUrl] sends nothing until the user has pressed Delete in the
    dialog, and then sends one request, the DELETE of
    [/api/urls/] followed by the code; the dialog is always the first
    effect. *)
Theorem deleteUrl_asks_first
    (BACKEND_URL : option jsstring) (o : Oracle) (c : jsstring) (st : State) :
  let trace := effects o (deleteUrl BACKEND_URL c st) in
  (Exists (fun ev => is_request ev = true) trace <-> confirms o) /\
  filter (fun ev => is_request ev = true) trace
  = match pressed o with
    | Delete => [HttpDelete (interpolate BACKEND_URL ++ js "/api/urls/" ++ c)]
    | Cancel => []
    end /\
  head trace = Some (Asked (js "Delete URL")
                       (js "Are you sure you want to delete this shortened URL?")).
Proof.
  unfold effects, confirms, pressed. rewrite deleteUrl_scripted. simpl.
  destruct (on_buttons o _ _) eqn:Hb; simpl.
  - split; [|done].
    split; [|done]. intros H. apply Exists_cons in H as [H|H]; [done|].
    by apply Exists_nil in H.
  - destruct (on_delete o _); simpl; (split; [|done]);
      (split; [done|intros _]); apply Exists_cons_tl, Exists_cons_hd; done.
Qed.

(** X9: when the DELETE request is rejected the state is left as it was,
    and the alert says "Failed to delete URL" whatever the error carries:
    unlike [shortenUrl], [deleteUrl] does not show the detail sent by the
    server. *)
Theorem deleteUrl_failure
    (BACKEND_URL : option jsstring) (o : Oracle) (c : jsstring) (st : State)
    (error : AxiosError) :
  confirms o ->
  on_delete o (interpolate BACKEND_URL ++ js "/api/urls/" ++ c) = Rejected error ->
  result o (deleteUrl BACKEND_URL c st) = st /\
  effects o (deleteUrl BACKEND_URL c st)
  = [Asked (js "Delete URL") (js "Are you sure you want to delete this shortened URL?");
     HttpDelete (interpolate BACKEND_URL ++ js "/api/urls/" ++ c);
     Logged (js "Error deleting URL:");
     Alerted (js "Error") (js "Failed to delete URL")].
Proof.
  unfold confirms, result, effects. intros Hb Hd.
  by rewrite deleteUrl_scripted, Hb, Hd.
Qed.

Lemma deleteUrl_failure_witness :
  let o := replying (Rejected (with_detail [])) (Rejected (with_detail (js "URL not found")))
             (Fulfilled []) Delete in
  let st := setUrls [record (js "abc") (js "http://a") (js "1")] initialState in
  result o (deleteUrl None (js "abc") st) = st /\
  effects o (deleteUrl None (js "abc") st)
  = [Asked (js "Delete URL") (js "Are you sure you want to delete this shortened URL?");
     HttpDelete (interpolate None ++ js "/api/urls/" ++ js "abc");
     Logged (js "Error deleting URL:");
     Alerted (js "Error") (js "Failed to delete URL")].
Proof.
  apply (deleteUrl_failure None
           (replying (Rejected (with_detail [])) (Rejected (with_detail (js "URL not found")))
              (Fulfilled []) Delete)
           (js "abc")
           (setUrls [record (js "abc") (js "http://a") (js "1")] initialState)
           (with_detail (js "URL not found"))); reflexivity.
Defined.

(** X10: a confirmed, successful delete changes the list exactly when some
    record listed has the code; it never makes the list longer, and it
    removes every record of that code, not only the card that was
    pressed. *)
Theorem deleteUrl_changes_list_iff_listed
    (BACKEND_URL : option jsstring) (o : Oracle) (c : jsstring) (st : State) :
  confirms o -> deletes BACKEND_URL o c ->
  let after := urls (result o (deleteUrl BACKEND_URL c st)) in
  (after = urls st <-> Forall (fun url => short_code url <> c) (urls st)) /\
  (length after <= length (urls st))%nat /\
  Forall (fun url => short_code url <> c) after.
Proof.
  intros Hb Hd after. subst after. rewrite (deleteUrl_done _ _ _ _ Hb Hd). simpl.
  split; [apply filter_id_iff|]. split; [apply length_filter|].
  apply Forall_forall. intros url H. by apply list_elem_of_filter in H as [H _].
Qed.

Lemma deleteUrl_changes_list_iff_listed_witness :
  let o := replying (Rejected (with_detail [])) (Fulfilled tt) (Fulfilled []) Delete in
  let st := setUrls [record (js "abc") (js "http://a") (js "2");
                     record (js "xyz") (js "http://b") (js "1");
                     record (js "abc") (js "http://c") (js "0")] initialState in
  let after := urls (result o (deleteUrl None (js "abc") st)) in
  (after = urls st <-> Forall (fun url => short_code url <> js "abc") (urls st)) /\
  (length after <= length (urls st))%nat /\
  Forall (fun url => short_code url <> js "abc") after.
Proof.
  apply (deleteUrl_changes_list_iff_listed None
           (replying (Rejected (with_detail [])) (Fulfilled tt) (Fulfilled []) Delete)
           (js "abc")
           (setUrls [record (js "abc") (js "http://a") (js "2");
                     record (js "xyz") (js "http://b") (js "1");
                     record (js "abc") (js "http://c") (js "0")] initialState));
    reflexivity.
Defined.

(** X11: successful deletes can be done in either order with the same
    result, and deleting a code a second time changes nothing. *)
Theorem deleteUrl_commutes
    (BACKEND_URL : option jsstring) (o : Oracle) (a b : jsstring) (st : State) :
  confirms o -> deletes BACKEND_URL o a -> deletes BACKEND_URL o b ->
  result o (deleteUrl BACKEND_URL a (result o (deleteUrl BACKEND_URL b st)))
  = result o (deleteUrl BACKEND_URL b (result o (deleteUrl BACKEND_URL a st))) /\
  result o (deleteUrl BACKEND_URL a (result o (deleteUrl BACKEND_URL a st)))
  = result o (deleteUrl BACKEND_URL a st).
Proof.
  intros Hc Ha Hb. rewrite !deleteUrl_done by done. unfold setUrls. simpl.
  split; f_equal.
  - rewrite !list_filter_filter. apply list_filter_iff. tauto.
  - rewrite list_filter_filter. apply list_filter_iff. tauto.
Qed.

Lemma deleteUrl_commutes_witness :
  let o := replying (Rejected (with_detail [])) (Fulfilled tt) (Fulfilled []) Delete in
  let st := setUrls [record (js "abc") (js "http://a") (js "2");
                     record (js "xyz") (js "http://b") (js "1");
                     record (js "klm") (js "http://c") (js "0")] initialState in
  result o (deleteUrl None (js "abc") (result o (deleteUrl None (js "klm") st)))
  = result o (deleteUrl None (js "klm") (result o (deleteUrl None (js "abc") st))) /\
  result o (deleteUrl None (js "abc") (result o (deleteUrl None (js "abc") st)))
  = result o (deleteUrl None (js "abc") st).
Proof.
  apply (deleteUrl_commutes None
           (replying (Rejected (with_detail [])) (Fulfilled tt) (Fulfilled []) Delete)
           (js "abc") (js "klm")
           (setUrls [record (js "abc") (js "http://a") (js "2");
                     record (js "xyz") (js "http://b") (js "1");
                     record (js "klm") (js "http://c") (js "0")] initialState));
    reflexivity.
Defined.

(** ** Actions on the screen, one after the other *)

Lemma play_cons BACKEND_URL a o script st :
  play BACKEND_URL ((a, o) :: script) st
  = play BACKEND_URL script (result o (perform BACKEND_URL a st)).
Proof. done. Qed.

(** X12: creating a link and then deleting it gives the list back.  From a
    screen at rest, if Shorten succeeds with a record whose code is not
    listed, and the user then presses Delete on the first card and confirms,
    and that request succeeds, the list is the one before the two
    actions. *)
Theorem shorten_then_delete_restores_list
    (BACKEND_URL : option jsstring) (o1 o2 : Oracle) (st : State) (created : URL) :
  loading st = false -> fetchingUrls st = false ->
  Regex.found_at_start url_pattern (originalUrl st) ->
  post_reply BACKEND_URL o1 st = Fulfilled created ->
  Forall (fun url => short_code url <> short_code created) (urls st) ->
  confirms o2 -> deletes BACKEND_URL o2 (short_code created) ->
  urls (play BACKEND_URL [(PressShorten, o1); (PressDelete 0, o2)] st) = urls st.
Proof.
  intros Hl Hf Hurl Hpost Hfresh Hc Hd.
  apply RegexFacts.test_at_start_found in Hurl.
  rewrite !play_cons.
  assert (exists st1, result o1 (perform BACKEND_URL PressShorten st) = st1 /\
            fetchingUrls st1 = false /\ urls st1 = created :: urls st)
    as (st1 & -> & Hf1 & Hu1).
  { unfold perform, result. rewrite Hl, (shortenUrl_valid _ _ _ _ Hurl).
    unfold post_reply in Hpost. rewrite Hpost. eexists. split; [done|]. by simpl. }
  unfold play, foldl, perform. rewrite Hf1, Hu1. simpl.
  unfold onPressDelete. simpl. rewrite (deleteUrl_done _ _ _ _ Hc Hd). simpl.
  rewrite Hu1, filter_cons, decide_False by (intros H; by apply H).
  by apply filter_id_iff.
Qed.

Lemma shorten_then_delete_restores_list_witness :
  let created := record (js "new") (js "http://c") (js "3") in
  let o1 := replying (Fulfilled created) (Fulfilled tt) (Fulfilled []) Cancel in
  let o2 := replying (Rejected (with_detail [])) (Fulfilled tt) (Fulfilled []) Delete in
  let st := setFetchingUrls false
              (setUrls [record (js "abc") (js "http://a") (js "2")]
                 (typed (js "http://c") [])) in
  urls (play None [(PressShorten, o1); (PressDelete 0, o2)] st) = urls st.
Proof.
  apply (shorten_then_delete_restores_list None
           (replying (Fulfilled (record (js "new") (js "http://c") (js "3")))
              (Fulfilled tt) (Fulfilled []) Cancel)
           (replying (Rejected (with_detail [])) (Fulfilled tt) (Fulfilled []) Delete)
           (setFetchingUrls false
              (setUrls [record (js "abc") (js "http://a") (js "2")]
                 (typed (js "http://c") [])))
           (record (js "new") (js "http://c") (js "3"))).
  - reflexivity.
  - reflexivity.
  - apply RegexFacts.test_at_start_found. reflexivity.
  - reflexivity.
  - repeat constructor. discriminate.
  - reflexivity.
  - reflexivity.
Defined.

Lemma perform_keeps_flags_off BACKEND_URL a o st :
  loading st = false -> fetchingUrls st = false ->
  loading (result o (perform BACKEND_URL a st)) = false /\
  fetchingUrls (result o (perform BACKEND_URL a st)) = false.
Proof.
  intros Hl Hf. unfold result. destruct a; unfold perform.
  - rewrite fetchUrls_scripted. by destruct (on_get o _).
  - done.
  - done.
  - done.
  - rewrite Hl. destruct (Regex.test_at_start url_pattern (originalUrl st)) eqn:Ht.
    + rewrite (shortenUrl_valid _ _ _ _ Ht). by destruct (on_post o _ _).
    + by rewrite (shortenUrl_invalid_exact _ _ _ _ Ht).
  - rewrite fetchUrls_scripted. by destruct (on_get o _).
  - rewrite Hf. by destruct (urls st !! index).
  - rewrite Hf. by destruct (urls st !! index).
  - rewrite Hf. destruct (urls st !! index) as [url|]; [|done].
    unfold onPressDelete. rewrite deleteUrl_scripted. simpl.
    destruct (on_buttons o _ _); [done|]. by destruct (on_delete o _).
  - done.
Qed.

(** X13: once the screen has mounted, no completed action leaves a spinner
    on: after any script of actions and whatever the replies, [loading] is
    false, so the Shorten button is enabled, and [fetchingUrls] is false, so
    the list (or its empty state) is shown. *)
Theorem spinners_are_off_after_every_action
    (BACKEND_URL : option jsstring) (o : Oracle) (script : list (Action * Oracle))
    (st : State) :
  let st' := play BACKEND_URL ((Mount, o) :: script) st in
  loading st' = false /\ fetchingUrls st' = false.
Proof.
  intros st'. subst st'. rewrite play_cons.
  assert (loading (result o (perform BACKEND_URL Mount st)) = false /\
          fetchingUrls (result o (perform BACKEND_URL Mount st)) = false) as [Hl Hf].
  { unfold result, perform. rewrite fetchUrls_scripted. by destruct (on_get o _). }
  revert Hl Hf. generalize (result o (perform BACKEND_URL Mount st)). clear st.
  induction script as [|[a o'] script IH]; intros st Hl Hf; [done|].
  rewrite play_cons.
  destruct (perform_keeps_flags_off BACKEND_URL a o' st Hl Hf) as [Hl' Hf'].
  by apply IH.
Qed.

(** ** Truncation, continued *)

Lemma truncateUrl_cases (u : jsstring) (n : N) :
  truncateUrl u (Some n)
  = if N.of_nat (length u) <=? n then u else take (N.to_nat n) u ++ js "...".
Proof. unfold truncateUrl. simpl. by rewrite substring_from_start. Qed.

(** X14: truncating twice is truncating once: the text [truncateUrl]
    returns is returned unchanged when it is passed again with the same
    bound, although, ending in "...", it may be longer than the bound. *)
Theorem truncateUrl_idempotent (u : jsstring) (maxLength : option N) :
  truncateUrl (truncateUrl u maxLength) maxLength = truncateUrl u maxLength.
Proof.
  assert (forall n, truncateUrl (truncateUrl u (Some n)) (Some n) = truncateUrl u (Some n))
    as Hn.
  { intros n. rewrite (truncateUrl_cases u).
    destruct (N.leb_spec (N.of_nat (length u)) n) as [H|H].
    - rewrite truncateUrl_cases. by rewrite (proj2 (N.leb_le _ _) H).
    - rewrite truncateUrl_cases.
      assert (length (take (N.to_nat n) u ++ js "...") = N.to_nat n + 3)%nat as Hlen.
      { rewrite length_app, length_take. simpl. lia. }
      rewrite Hlen.
      destruct (N.leb_spec (N.of_nat (N.to_nat n + 3)) n) as [H'|H']; [lia|].
      rewrite take_app_le by (rewrite length_take; lia).
      by rewrite take_take, Nat.min_id. }
  destruct maxLength as [n|]; [apply Hn|apply (Hn 40)].
Qed.

(** X15: when [truncateUrl] cuts, its result has exactly [n + 3]
    characters, so a URL of [n + 1] or [n + 2] characters is shown longer
    than it is; and the result is the URL itself exactly when the URL has at
    most [n] characters or its characters from the [n]-th on are "...". *)
Theorem truncateUrl_length_and_fixed_points (u : jsstring) (n : N) :
  let r := truncateUrl u (Some n) in
  N.of_nat (length r)
  = (if N.of_nat (length u) <=? n then N.of_nat (length u) else n + 3) /\
  (r = u <-> N.of_nat (length u) <= n \/ drop (N.to_nat n) u = js "...").
Proof.
  intros r. subst r. rewrite truncateUrl_cases.
  destruct (N.leb_spec (N.of_nat (length u)) n) as [H|H].
  - split; [done|]. split; [by left|done].
  - split.
    + rewrite length_app, length_take. simpl. lia.
    + rewrite <- (take_drop (N.to_nat n) u) at 2. split.
      * intros Heq. apply app_inv_head in Heq. by right.
      * intros [Hle|Hd]; [lia|]. by rewrite Hd.
Qed.

Example truncateUrl_lengthens :
  truncateUrl (js "http://abc") (Some 9) = js "http://ab...".
Proof. reflexivity. Qed.

(** ** The short URL, continued *)

(** X16: the short URL determines the code: two codes give the same short
    URL only if they are the same code, and removing the address of the
    server and [/api/] from the front of a short URL gives the code back. *)
Theorem getShortUrl_determines_code (BACKEND_URL : option jsstring) (c1 c2 : jsstring) :
  (getShortUrl BACKEND_URL c1 = getShortUrl BACKEND_URL c2 <-> c1 = c2) /\
  stripPrefix (interpolate BACKEND_URL ++ js "/api/") (getShortUrl BACKEND_URL c1)
  = Some c1.
Proof.
  unfold getShortUrl. split.
  - split; [|by intros ->]. rewrite !app_assoc. apply app_inv_head.
  - by rewrite app_assoc, stripPrefix_app.
Qed.

(** X17: the text shown on a card under "Short URL:" is the text the Copy
    button copies exactly when [EXPO_PUBLIC_BACKEND_URL] is set; when it is
    not, the card shows [/api/<code>] and the clipboard receives
    [undefined/api/<code>]. *)
Theorem card_shows_what_copy_copies_iff_configured
    (BACKEND_URL : option jsstring) (url : URL) :
  (cardShortUrl BACKEND_URL url = getShortUrl BACKEND_URL (short_code url)
   <-> BACKEND_URL <> None) /\
  (BACKEND_URL = None ->
   cardShortUrl BACKEND_URL url = js "/api/" ++ short_code url /\
   getShortUrl BACKEND_URL (short_code url) = js "undefined/api/" ++ short_code url).
Proof.
  unfold cardShortUrl, getShortUrl. destruct BACKEND_URL as [b|]; simpl.
  - split; [|done]. split; done.
  - split; [|done]. split; [discriminate|done].
Qed.

Lemma card_shows_what_copy_copies_iff_configured_witness :
  cardShortUrl None (record (js "abc") (js "http://a") (js "1")) = js "/api/" ++ js "abc" /\
  getShortUrl None (js "abc") = js "undefined/api/" ++ js "abc".
Proof.
  apply (proj2 (card_shows_what_copy_copies_iff_configured None
                  (record (js "abc") (js "http://a") (js "1")))).
  reflexivity.
Defined.

(** ** The QR modal *)

(** X18: pressing QR Code on a card always opens the modal, but the modal
    holds an image only if the [qr_code] of the record is not the empty
    string: the modal looks at [selectedQR !== null], the image at the
    truthiness of [selectedQR].  Closing the modal hides it. *)
Theorem qr_modal_opens_even_without_image
    (BACKEND_URL : option jsstring) (o : Oracle) (st : State) (index : nat) (url : URL) :
  fetchingUrls st = false ->
  urls st !! index = Some url ->
  let st' := result o (perform BACKEND_URL (PressQR index) st) in
  modalVisible st' = true /\
  modalImage st' = (if truthy (qr_code url) then Some (qr_code url) else None) /\
  (modalImage st' = None <-> qr_code url = []) /\
  modalVisible (result o (perform BACKEND_URL CloseQR st')) = false.
Proof.
  intros Hf Hi st'. subst st'. unfold result, perform. rewrite Hf, Hi. simpl.
  unfold modalImage. simpl. split; [done|]. split; [done|]. split; [|done].
  by destruct (qr_code url).
Qed.

Lemma qr_modal_opens_even_without_image_witness :
  let st := setFetchingUrls false
              (setUrls [record (js "abc") (js "http://a") (js "1")] initialState) in
  let url := record (js "abc") (js "http://a") (js "1") in
  let st' := result offline (perform None (PressQR 0) st) in
  modalVisible st' = true /\
  modalImage st' = (if truthy (qr_code url) then Some (qr_code url) else None) /\
  (modalImage st' = None <-> qr_code url = []) /\
  modalVisible (result offline (perform None CloseQR st')) = false.
Proof.
  apply (qr_modal_opens_even_without_image None offline
           (setFetchingUrls false
              (setUrls [record (js "abc") (js "http://a") (js "1")] initialState))
           0%nat (record (js "abc") (js "http://a") (js "1"))); reflexivity.
Defined.
